(** * mayapy-launcher: version resolution, embedded from
      [src/mayapy_launcher/__init__.py]

    The launcher decides which installed Maya release to start.  This file
    embeds the [Version] value type, the nearest-match resolver
    [pyver_to_mayaver], the ancestor walk [parent_dirs], the probe chain
    [resolve_version] and the entry point [main], and states the properties
    of the specification over that embedding.

    Conventions.
    - Python [int] is [Z]; [str] is [string], restricted to the 8-bit
      characters of [ascii] (so [\d] is ['0'..'9']).
    - A call that may raise returns [res A]; the exception classes that the
      program can raise are the constructors of [exn].
    - The operating system (environment variables, file system, registry) is
      a read-only record [Env].  Calls whose order matters are logged as a
      list of [event]s. *)

From Stdlib Require Import ZArith List String Ascii Bool Lia.
From Stdlib Require Import Decimal DecimalString DecimalZ DecimalPos.
From Equations.Prop Require Import Equations Logic.
Import ListNotations.

#[local] Open Scope string_scope.
#[local] Open Scope Z_scope.
#[local] Open Scope list_scope.

(** ** Exceptions and results *)

Inductive exn : Type :=
| ValueError
| TypeError
| IndexError
| OSError
| RuntimeError
| CalledProcessError.

Inductive res (A : Type) : Type :=
| Ok (a : A)
| Raise (e : exn).
Arguments Ok {A} a.
Arguments Raise {A} e.

Definition res_bind {A B} (r : res A) (k : A -> res B) : res B :=
  match r with
  | Ok a => k a
  | Raise e => Raise e
  end.

Declare Scope res_scope.
Delimit Scope res_scope with res.
Notation "'let!' x ':=' r 'in' k" := (res_bind r (fun x => k))
  (at level 10, x name, r at level 100, k at level 200) : res_scope.

(** ** Python built-ins used by the launcher *)

Module Py.

(** [\d] on 8-bit text. *)
Definition is_digit (c : ascii) : bool :=
  match c with
  | "0" | "1" | "2" | "3" | "4" | "5" | "6" | "7" | "8" | "9" => true
  | _ => false
  end%char.

(** The white space that [int()] strips, among 8-bit characters: tab to
    carriage return, the space, NEL and the no-break space.  (The separators
    U+001C to U+001F are white space for [str.strip()], but [int()] does not
    accept them.) *)
Definition is_space (c : ascii) : bool :=
  let n := N_of_ascii c in
  (((9 <=? n) && (n <=? 13)) || (n =? 32) || (n =? 133) || (n =? 160))%N.

Fixpoint lstrip (s : string) : string :=
  match s with
  | String c r => if is_space c then lstrip r else s
  | EmptyString => EmptyString
  end.

Fixpoint rstrip (s : string) : string :=
  match s with
  | String c r =>
      match rstrip r with
      | EmptyString => if is_space c then EmptyString else String c EmptyString
      | r' => String c r'
      end
  | EmptyString => EmptyString
  end.

Definition strip (s : string) : string := rstrip (lstrip s).

(** The digits of an integer literal: groups of digits separated by single
    underscores.  Returns the digits with the underscores removed. *)
Fixpoint int_body (after_digit : bool) (s : string) : option string :=
  match s with
  | EmptyString => if after_digit then Some EmptyString else None
  | String c r =>
      if is_digit c then option_map (String c) (int_body true r)
      else if Ascii.eqb c "_" then
             if after_digit then int_body false r else None
      else None
  end.

Definition of_digits (ds : string) : option Z :=
  option_map Z.of_uint (NilEmpty.uint_of_string ds).

(** An optional sign in front of the literal. *)
Definition split_sign (t : string) : Z * string :=
  match t with
  | String "-" r => (-1, r)
  | String "+" r => (1, r)
  | _ => (1, t)
  end.

(** [int(s)] for a string [s]; [None] stands for [ValueError]. *)
Definition int (s : string) : option Z :=
  let '(sign, body) := split_sign (strip s) in
  match int_body false body with
  | Some ds => option_map (Z.mul sign) (of_digits ds)
  | None => None
  end.

(** Strings made of digits only. *)
Fixpoint all_digits (s : string) : bool :=
  match s with
  | EmptyString => true
  | String c r => is_digit c && all_digits r
  end.

(** Whether a string does not begin with a digit. *)
Definition no_digit_ahead (s : string) : bool :=
  match s with
  | EmptyString => true
  | String c _ => negb (is_digit c)
  end.

(** [str(n)] for an integer [n]. *)
Definition str (n : Z) : string := NilZero.string_of_int (Z.to_int n).

(** [x or 0] for an integer [x]. *)
Definition or0 (x : Z) : Z := if x =? 0 then 0 else x.

(** Line boundaries of [str.splitlines()] among 8-bit characters. *)
Definition is_linebreak (c : ascii) : bool :=
  let n := N_of_ascii c in
  (((10 <=? n) && (n <=? 13)) || ((28 <=? n) && (n <=? 30)) || (n =? 133))%N.

(** [splitlines_from cur s]: [cur] is the line being read, if one was
    started. *)
Fixpoint splitlines_from (cur : option string) (s : string) : list string :=
  match s with
  | EmptyString =>
      match cur with
      | Some l => [l]
      | None => []
      end
  | String c r =>
      let l := match cur with Some l => l | None => EmptyString end in
      if is_linebreak c then
        match c, r with
        | "013"%char, String "010"%char r' => l :: splitlines_from None r'
        | _, _ => l :: splitlines_from None r
        end
      else splitlines_from (Some (l ++ String c EmptyString)%string) r
  end.

Definition splitlines (s : string) : list string := splitlines_from None s.

End Py.

Arguments Py.is_digit : simpl never.
Arguments Py.is_space : simpl never.
Arguments Py.is_linebreak : simpl never.

(** ** The [Version] dataclass *)

Record Version : Type := mkVersion { major : Z; minor : Z; patch : Z }.

Module VersionM.

(** [__str__] *)
Definition to_str (v : Version) : string :=
  (Py.str (major v) ++ "." ++ Py.str (minor v) ++ "." ++ Py.str (patch v))%string.

(** [dataclass(order=True)]: comparison of the tuples
    [(major, minor, patch)]. *)
Definition ltb (a b : Version) : bool :=
  (major a <? major b)
  || ((major a =? major b)
      && ((minor a <? minor b)
          || ((minor a =? minor b) && (patch a <? patch b)))).

Definition eqb (a b : Version) : bool :=
  (major a =? major b) && (minor a =? minor b) && (patch a =? patch b).

Definition lt (a b : Version) : Prop := ltb a b = true.
Definition le (a b : Version) : Prop := ltb b a = false.

(** *** The class attribute [regex],
    [(?P<major>\d+)(.(?P<minor>\d+))?(.(?P<patch>\d+))?] *)

Record groups : Type :=
  mkGroups { g_major : string; g_minor : option string; g_patch : option string }.

(** The longest run of digits at the head of [s], and what follows it. *)
Fixpoint span_digits (s : string) : string * string :=
  match s with
  | String c r =>
      if Py.is_digit c
      then let '(d, rest) := span_digits r in (String c d, rest)
      else (EmptyString, s)
  | EmptyString => (EmptyString, EmptyString)
  end.

(** [\d+], greedy. *)
Definition match_digits (s : string) : option (string * string) :=
  match span_digits s with
  | (EmptyString, _) => None
  | (d, rest) => Some (d, rest)
  end.

(** [.(\d+)]: the dot is any character but a newline. *)
Definition match_sep_digits (s : string) : option (string * string) :=
  match s with
  | String c r => if Ascii.eqb c "010" then None else match_digits r
  | EmptyString => None
  end.

(** An optional group [(.(\d+))?] at [s]: the capture and the rest. *)
Definition match_opt_group (s : string) : option string * string :=
  match match_sep_digits s with
  | Some (d, rest) => (Some d, rest)
  | None => (None, s)
  end.

(** [regex.match(s)]: anchored at the start, not at the end.  Every
    quantifier is greedy and the remainder of the pattern always matches, so
    the first alternative tried at each point is the one returned. *)
Definition regex_match (s : string) : option groups :=
  match match_digits s with
  | None => None
  | Some (ma, r1) =>
      let '(mi, r2) := match_opt_group r1 in
      let '(pa, _) := match_opt_group r2 in
      Some (mkGroups ma mi pa)
  end.

(** [int(group)] for an entry of [groupdict()]: a group that did not take
    part in the match is [None], and [int(None)] raises [TypeError]. *)
Definition int_of_group (g : option string) : res Z :=
  match g with
  | None => Raise TypeError
  | Some s =>
      match Py.int s with
      | Some z => Ok z
      | None => Raise ValueError
      end
  end.

(** [Version.parse] *)
Definition parse (version_str : string) : res Version :=
  match regex_match version_str with
  | None => Raise ValueError
  | Some group_dict =>
      (let! ma := int_of_group (Some (g_major group_dict)) in
       let major := Py.or0 ma in
       let! mi := int_of_group (g_minor group_dict) in
       let minor := Py.or0 mi in
       let! pa := int_of_group (g_patch group_dict) in
       let patch := Py.or0 pa in
       Ok (mkVersion major minor patch))%res
  end.

(** [Version.distance] *)
Definition distance (version_a version_b : Version) : Version :=
  let major := Z.abs (major version_a - major version_b) in
  let minor := Z.abs (minor version_a - minor version_b) in
  let patch := Z.abs (patch version_a - patch version_b) in
  mkVersion major minor patch.

End VersionM.


(** ** Paths *)

(** A [pathlib] path: the anchor (drive and root, [C:\] say) and the
    components below it, outermost first. *)
Record PurePath : Type := mkPath { anchor : string; tail : list string }.

(** What a property returning a path hands back: the receiver itself, or a
    newly built object.  [x is y] holds for the former only. *)
Inductive path_ref : Type :=
| Self
| Fresh (p : PurePath).

(** [PurePath.parent].  For a path without components below its anchor
    CPython returns [self], the very object; otherwise it builds a new path
    without the last component.  ([Path.resolve()] returns an absolute path,
    and on absolute paths every CPython version of [pathlib] agrees with
    this.) *)
Definition parent (path : PurePath) : path_ref :=
  match tail path with
  | [] => Self
  | _ :: _ => Fresh (mkPath (anchor path) (removelast (tail path)))
  end.

(** [path.parent is path] *)
Definition parent_is_self (path : PurePath) : bool :=
  match parent path with
  | Self => true
  | Fresh _ => false
  end.

(** The loop of [parent_dirs], from a resolved path on; the list is the
    sequence of values yielded. *)
Equations? parent_dirs_from (path : PurePath) : list PurePath
  by wf (List.length (tail path)) lt :=
  parent_dirs_from path with inspect (parent path) := {
    | exist _ Self _ => [path]
    | exist _ (Fresh p) H => path :: parent_dirs_from p }.
Proof.
  unfold parent in H. destruct (tail path) as [|c cs] eqn:E; [discriminate|].
  injection H as <-. simpl tail.
  assert (Hl : forall (x : string) (xs : list string),
             S (List.length (removelast (x :: xs))) = List.length (x :: xs)).
  { intros x xs. revert x. induction xs as [|d ds IH]; intros x; [reflexivity|].
    change (removelast (x :: d :: ds)) with (x :: removelast (d :: ds)).
    change (S (S (List.length (removelast (d :: ds))))
            = S (List.length (d :: ds))).
    f_equal. apply IH. }
  rewrite <- (Hl c cs). apply Nat.lt_succ_diag_r.
Defined.

(** [str(path)] on Windows. *)
Definition path_str (p : PurePath) : string :=
  anchor p ++ String.concat "\" (tail p).

(** ** The environment of a run *)

(** An entry of a directory, as [Path.iterdir] lists it: [name],
    [is_file()] and, for a file, [read_text()]. *)
Record dirent : Type :=
  mkDirent { name : string; is_file : bool; read_text : string }.

(** The state of the machine that a run reads.  Directories are taken to be
    listable and files to be readable. *)
Record Env : Type := mkEnv {
  (** [os.environ.get("VIRTUAL_ENV")] *)
  environ_VIRTUAL_ENV : option string;
  (** [platform.python_version()] *)
  python_version_of_platform : string;
  (** [Path(p).resolve()] *)
  resolve : string -> PurePath;
  (** [path.iterdir()] *)
  iterdir : PurePath -> list dirent;
  (** The subkeys of [HKLM\SOFTWARE\Autodesk\Maya], in the order of
      [winreg.EnumKey]; [None] when the key does not exist. *)
  registry_maya_subkeys : option (list string);
  (** [maya_install_path]: the [MAYA_INSTALL_LOCATION] of a release. *)
  maya_install_path : Z -> option PurePath;
  (** The exit status of the child process that
      [subprocess.run(args, shell=True)] starts. *)
  child_returncode : list string -> Z
}.

(** The functions whose calls are logged. *)
Inductive fn : Type :=
| py_version_from_shebang_fn
| py_version_from_virtualenv_fn
| py_version_from_python_version_fn
| maya_version_from_maya_version_fn
| latest_maya_version_fn
| installed_maya_versions_fn.

Inductive event : Type :=
| Call (f : fn)
| Run (args : list string).

(** A computation reads the environment, logs events and returns or
    raises. *)
Definition M (A : Type) : Type := Env -> list event * res A.

Definition ret {A} (a : A) : M A := fun _ => ([], Ok a).
Definition raise {A} (e : exn) : M A := fun _ => ([], Raise e).
Definition lift {A} (r : res A) : M A := fun _ => ([], r).
Definition ask : M Env := fun env => ([], Ok env).
Definition log (ev : event) : M unit := fun _ => ([ev], Ok tt).

Definition bind {A B} (m : M A) (k : A -> M B) : M B :=
  fun env =>
    match m env with
    | (t, Ok a) => let '(t', r) := k a env in (t ++ t', r)
    | (t, Raise e) => (t, Raise e)
    end.

Declare Scope M_scope.
Delimit Scope M_scope with M.
Notation "x <- m ;; k" := (bind m (fun x => k))
  (at level 61, m at next level, right associativity) : M_scope.
Notation "m ;; k" := (bind m (fun _ => k))
  (at level 61, right associativity) : M_scope.
#[local] Open Scope M_scope.

Definition trace {A} (m : M A) (env : Env) : list event := fst (m env).
Definition result {A} (m : M A) (env : Env) : res A := snd (m env).

(** ** The launcher *)

(** [py_to_maya_map]; a [dict] keeps the order of insertion. *)
Definition py_to_maya_map : list (string * Z) :=
  [("2.7.11", 2019); ("2.7.18", 2020); ("3.7.9", 2022); ("3.9.7", 2023)].

(** [d.keys()] and [d.get(k)] *)
Definition dict_keys (d : list (string * Z)) : list string := map fst d.

Fixpoint dict_get (d : list (string * Z)) (k : string) : option Z :=
  match d with
  | [] => None
  | (k', v) :: d' => if String.eqb k k' then Some v else dict_get d' k
  end.

(** The body of the [try] in [installed_maya_versions], for the subkeys that
    [EnumKey] still has: a subkey that is no integer is skipped. *)
Fixpoint enum_versions (subkeys : list string) : list Z :=
  match subkeys with
  | [] => []
  | subkey :: rest =>
      match Py.int subkey with
      | Some v => v :: enum_versions rest
      | None => enum_versions rest
      end
  end.

Definition installed_maya_versions : M (list Z) :=
  log (Call installed_maya_versions_fn) ;;
  env <- ask ;;
  match registry_maya_subkeys env with
  | None => raise OSError
  | Some subkeys => ret (enum_versions subkeys)
  end.

(** [x in l] for [x : int | None] and a list of integers. *)
Definition py_in (x : option Z) (l : list Z) : bool :=
  match x with
  | Some v => existsb (Z.eqb v) l
  | None => false
  end.

Definition ensure_installed (maya_version : option Z) : M (option Z) :=
  installed <- installed_maya_versions ;;
  if py_in maya_version installed then ret maya_version else ret None.

(** [parent_dirs(path)] *)
Definition parent_dirs (path : string) : M (list PurePath) :=
  env <- ask ;;
  ret (parent_dirs_from (resolve env path)).

(** [max(l)] *)
Definition py_max (l : list Z) : res Z :=
  match l with
  | [] => Raise ValueError
  | x :: xs => Ok (fold_left Z.max xs x)
  end.

Definition latest_maya_version : M Z :=
  log (Call latest_maya_version_fn) ;;
  installed <- installed_maya_versions ;;
  lift (py_max installed).

Definition py_version_from_shebang : M (option Version) :=
  log (Call py_version_from_shebang_fn) ;;
  ret None.

Definition py_version_from_virtualenv : M (option Version) :=
  log (Call py_version_from_virtualenv_fn) ;;
  env <- ask ;;
  match environ_VIRTUAL_ENV env with
  | Some _ =>
      let version := python_version_of_platform env in
      v <- lift (VersionM.parse version) ;;
      ret (Some v)
  | None => ret None
  end.

(** The first child of a directory listing that is a file called [fname]. *)
Fixpoint find_file (fname : string) (children : list dirent) : option dirent :=
  match children with
  | [] => None
  | child :: rest =>
      if String.eqb (name child) fname && is_file child
      then Some child
      else find_file fname rest
  end.

(** The two nested [for] loops of the pin-file probes: the first file called
    [fname] met while walking [dirs], handed to [read]. *)
Fixpoint first_pin {A} (fname : string) (read : dirent -> res A)
    (env : Env) (dirs : list PurePath) : res (option A) :=
  match dirs with
  | [] => Ok None
  | path :: rest =>
      match find_file fname (iterdir env path) with
      | Some child => (let! a := read child in Ok (Some a))%res
      | None => first_pin fname read env rest
      end
  end.

(** [l[0]] *)
Definition item0 (l : list string) : res string :=
  match l with
  | [] => Raise IndexError
  | x :: _ => Ok x
  end.

(** [l or []] *)
Definition or_nil (l : list string) : list string :=
  match l with
  | [] => []
  | _ :: _ => l
  end.

(** What [py_version_from_python_version] does with the file it found. *)
Definition read_python_version (child : dirent) : res Version :=
  let versions := or_nil (Py.splitlines (read_text child)) in
  (let! v0 := item0 versions in VersionM.parse v0)%res.

Definition py_version_from_python_version : M (option Version) :=
  log (Call py_version_from_python_version_fn) ;;
  dirs <- parent_dirs "." ;;
  env <- ask ;;
  lift (first_pin ".python-version" read_python_version env dirs).

(** What [maya_version_from_maya_version] does with the file it found. *)
Definition read_maya_version (child : dirent) : res Z :=
  let versions := Py.splitlines (read_text child) in
  (let! v0 := item0 versions in
   match Py.int v0 with
   | Some n => Ok n
   | None => Raise ValueError
   end)%res.

Definition maya_version_from_maya_version : M (option Z) :=
  log (Call maya_version_from_maya_version_fn) ;;
  dirs <- parent_dirs "." ;;
  env <- ask ;;
  lift (first_pin ".maya-version" read_maya_version env dirs).

(** The [for] loop of [pyver_to_mayaver] over the keys that remain, from the
    current [closest_version] and [closest_distance]. *)
Fixpoint closest_loop (python_version : Version) (keys : list string)
    (closest : option Version * option Version)
  : res (option Version * option Version) :=
  match keys with
  | [] => Ok closest
  | key :: rest =>
      (let! mayapy_version := VersionM.parse key in
       let distance := VersionM.distance python_version mayapy_version in
       match closest with
       | (Some closest_version, Some closest_distance) =>
           if VersionM.ltb distance closest_distance
           then closest_loop python_version rest
                  (Some mayapy_version, Some distance)
           else closest_loop python_version rest closest
       | _ =>
           closest_loop python_version rest
             (Some mayapy_version, Some distance)
       end)%res
  end.

(** [pyver_to_mayaver], for a version map [table]. *)
Definition pyver_to_mayaver_in (table : list (string * Z))
    (python_version : Version) : M (option Z) :=
  closest <- lift (closest_loop python_version (dict_keys table) (None, None)) ;;
  match fst closest with
  | Some closest_version =>
      let same_major := major python_version =? major closest_version in
      let same_minor := minor python_version =? minor closest_version in
      if same_major && same_minor then
        let maya_version := dict_get table (VersionM.to_str python_version) in
        maya_version <- ensure_installed maya_version ;;
        match maya_version with
        | Some v => ret (Some v)
        | None => ret None
        end
      else ret None
  | None => ret None
  end.

Definition pyver_to_mayaver : Version -> M (option Z) :=
  pyver_to_mayaver_in py_to_maya_map.

(** The first loop of [resolve_version]. *)
Fixpoint run_py_version_resolvers
    (resolvers : list (M (option Version))) : M (option Z) :=
  match resolvers with
  | [] => ret None
  | resolver :: rest =>
      python_version <- resolver ;;
      match python_version with
      | Some v =>
          maya_version <- pyver_to_mayaver v ;;
          match maya_version with
          | Some r => ret (Some r)
          | None => run_py_version_resolvers rest
          end
      | None => run_py_version_resolvers rest
      end
  end.

(** The second loop of [resolve_version]. *)
Fixpoint run_maya_version_resolvers
    (resolvers : list (M (option Z))) : M (option Z) :=
  match resolvers with
  | [] => ret None
  | resolver :: rest =>
      maya_version <- resolver ;;
      match maya_version with
      | Some r => ret (Some r)
      | None => run_maya_version_resolvers rest
      end
  end.

Definition py_version_resolvers : list (M (option Version)) :=
  [ py_version_from_shebang;
    py_version_from_virtualenv;
    py_version_from_python_version ].

Definition maya_version_resolvers : list (M (option Z)) :=
  [ maya_version_from_maya_version;
    (v <- latest_maya_version ;; ret (Some v)) ].

Definition resolve_version : M (option Z) :=
  maya_version <- run_py_version_resolvers py_version_resolvers ;;
  match maya_version with
  | Some r => ret (Some r)
  | None => run_maya_version_resolvers maya_version_resolvers
  end.

(** [mayapy] *)
Definition mayapy (version : Z) : M (option PurePath) :=
  env <- ask ;;
  match maya_install_path env version with
  | Some maya_install_dir =>
      ret (Some (mkPath (anchor maya_install_dir)
                   (tail maya_install_dir ++ ["bin"; "mayapy.exe"])))
  | None => ret None
  end.

(** [str(x)] for [x : Path | None] *)
Definition str_of_path_option (p : option PurePath) : string :=
  match p with
  | Some p => path_str p
  | None => "None"
  end.

(** [subprocess.run(args, shell=True, check=True)]: the command is run, and
    a status other than 0 raises [CalledProcessError]. *)
Definition subprocess_run_check (args : list string) : M unit :=
  log (Run args) ;;
  env <- ask ;;
  if child_returncode env args =? 0 then ret tt else raise CalledProcessError.

(** [start_mayapy] *)
Definition start_mayapy (version : Z) (args : list string) : M unit :=
  exe <- mayapy version ;;
  let args := str_of_path_option exe :: args in
  subprocess_run_check args.

(** [main], with [args] the value of [sys.argv[1:]]. *)
Definition main (args : list string) : M unit :=
  version <- resolve_version ;;
  let '(version, args) :=
    match args with
    | a :: rest =>
        match Py.int a with
        | Some n => (Some (Z.abs n), rest)
        | None => (version, args)
        end
    | [] => (version, args)
    end in
  match version with
  | None => raise RuntimeError
  | Some version => start_mayapy version args
  end.

(** ** Vocabulary of the statements *)

(** The names of [py_version_resolvers], in order. *)
Definition py_version_resolver_names : list fn :=
  [ py_version_from_shebang_fn;
    py_version_from_virtualenv_fn;
    py_version_from_python_version_fn ].

(** A probe of the first loop that returned, and led to no release: it found
    no version, or a version that [pyver_to_mayaver] did not resolve. *)
Definition no_match (env : Env) (p : M (option Version)) : Prop :=
  result p env = Ok None
  \/ exists v, result p env = Ok (Some v)
               /\ result (pyver_to_mayaver v) env = Ok None.

(** The events of one turn of the first loop: the probe, then
    [pyver_to_mayaver] on the version it found. *)
Definition probe_events (env : Env) (p : M (option Version)) : list event :=
  trace p env
  ++ match result p env with
     | Ok (Some v) => trace (pyver_to_mayaver v) env
     | _ => []
     end.

(** The pin file that the walk from the current directory meets first. *)
Definition find_pin (fname : string) (env : Env) : option dirent :=
  match first_pin fname (fun child => Ok child) env
          (parent_dirs_from (resolve env ".")) with
  | Ok found => found
  | Raise _ => None
  end.

(** The lexicographic order on versions, in the words of the specification:
    a difference in the major component dominates one in the minor, which
    dominates one in the patch. *)
Definition lex_lt (a b : Version) : Prop :=
  major a < major b
  \/ (major a = major b
      /\ (minor a < minor b
          \/ (minor a = minor b /\ patch a < patch b))).

(** The path of the interpreter below an install directory. *)
Definition mayapy_exe (maya_install_dir : PurePath) : PurePath :=
  mkPath (anchor maya_install_dir)
    (tail maya_install_dir ++ ["bin"; "mayapy.exe"]).

(** What [subprocess.run] with [check=True] returns for a command. *)
Definition checked (env : Env) (cmd : list string) : res unit :=
  if child_returncode env cmd =? 0 then Ok tt else Raise CalledProcessError.

(** Every key of a version map parses. *)
Definition keys_parse (table : list (string * Z)) : Prop :=
  Forall (fun k => exists kv, VersionM.parse k = Ok kv) (dict_keys table).

(** ** Sample environments *)

Module Sample.

(** The current directory. *)
Definition cwd : PurePath := mkPath "C:\" ["proj"; "src"].

(** An environment whose only pin files are [files], in the parent of the
    current directory; every release has an install path and every child
    process exits with status 0. *)
Definition make (venv : option string) (files : list dirent)
    (subkeys : option (list string)) : Env :=
  mkEnv venv "3.9.7" (fun _ => cwd)
    (fun p => match tail p with
              | ["proj"] => files
              | _ => []
              end)
    subkeys
    (fun v => Some (mkPath "C:\" ["Autodesk"; ("Maya" ++ Py.str v)%string]))
    (fun _ => 0).

(** Nothing to go by and nothing installed. *)
Definition exhausted : Env := make None [] (Some []).

(** The same, on a machine without the registry key of Maya. *)
Definition no_registry : Env := make None [] None.

(** An active virtualenv of Python 3.9.7; Maya 2022 and 2023 installed. *)
Definition venv_397 : Env :=
  make (Some "C:\venv") [] (Some ["2022"; "2023"]).

(** A [.python-version] file that pins 3.7.9; Maya 2022 and 2023 installed. *)
Definition pinned_379 : Env :=
  make None [mkDirent ".python-version" true "3.7.9"]
    (Some ["2022"; "2023"]).

(** A [.python-version] file whose first line is no version, next to a
    [.maya-version] file that pins 2023; Maya 2023 installed. *)
Definition bad_python_pin : Env :=
  make None [mkDirent ".python-version" true "abc";
             mkDirent ".maya-version" true "2023"]
    (Some ["2023"]).

(** A [.maya-version] file whose first line is no integer; Maya 2023
    installed. *)
Definition bad_maya_pin : Env :=
  make None [mkDirent ".maya-version" true "latest"] (Some ["2023"]).

(** A [.maya-version] file that pins 2019; only Maya 2023 installed. *)
Definition maya_pin_2019 : Env :=
  make None [mkDirent ".maya-version" true "2019"] (Some ["2023"]).

End Sample.

(** ** Vocabulary of the further properties *)

(** Strings without a line boundary. *)
Fixpoint no_linebreak (s : string) : bool :=
  match s with
  | EmptyString => true
  | String c r => negb (Py.is_linebreak c) && no_linebreak r
  end.

(** A text that ends here or goes on with a new line. *)
Definition line_ends (rest : string) : bool :=
  match rest with
  | EmptyString => true
  | String c _ => Py.is_linebreak c
  end.

(** An event that is the call of a function. *)
Definition is_call (ev : event) : bool :=
  match ev with
  | Call _ => true
  | Run _ => false
  end.

(** The ancestors of a path, the path first: the path cut to its first [k]
    components, for [k] from the number of its components down to 0. *)
Definition ancestors (path : PurePath) : list PurePath :=
  map (fun k => mkPath (anchor path) (firstn k (tail path)))
      (List.rev (seq 0 (S (List.length (tail path))))).

(** * Properties *)

(** ** The embedding at work *)

Example parse_full : VersionM.parse "3.9.7" = Ok (mkVersion 3 9 7).
Proof. reflexivity. Qed.

Example parse_ignores_suffix :
  VersionM.parse "3.10.0rc1" = Ok (mkVersion 3 10 0).
Proof. reflexivity. Qed.

Example parse_any_separator : VersionM.parse "3x9y7" = Ok (mkVersion 3 9 7).
Proof. reflexivity. Qed.

Example parse_no_match : VersionM.parse "abc" = Raise ValueError.
Proof. reflexivity. Qed.

Example to_str_397 : VersionM.to_str (mkVersion 3 9 7) = "3.9.7".
Proof. reflexivity. Qed.

Example int_dash : Py.int "-2023" = Some (-2023).
Proof. reflexivity. Qed.

Example int_underscore : Py.int " 2_023 " = Some 2023.
Proof. reflexivity. Qed.

Example int_no_flag : Py.int "-c" = None.
Proof. reflexivity. Qed.

Example splitlines_crlf :
  Py.splitlines (String "3" (String "013" (String "010" "2")))
  = ["3"; "2"].
Proof. reflexivity. Qed.

Example parent_dirs_from_cwd :
  parent_dirs_from Sample.cwd
  = [mkPath "C:\" ["proj"; "src"]; mkPath "C:\" ["proj"]; mkPath "C:\" []].
Proof. reflexivity. Qed.

(** The scenarios of the specification: the default map, with Maya 2022 and
    2023 installed. *)

Example scenario_397 :
  result (pyver_to_mayaver (mkVersion 3 9 7)) Sample.venv_397 = Ok (Some 2023).
Proof. reflexivity. Qed.

Example scenario_392 :
  result (pyver_to_mayaver (mkVersion 3 9 2)) Sample.venv_397 = Ok None.
Proof. reflexivity. Qed.

Example scenario_400 :
  pyver_to_mayaver (mkVersion 4 0 0) Sample.venv_397 = ([], Ok None).
Proof. reflexivity. Qed.

Example scenario_pinned :
  resolve_version Sample.pinned_379
  = ([Call py_version_from_shebang_fn; Call py_version_from_virtualenv_fn;
      Call py_version_from_python_version_fn;
      Call installed_maya_versions_fn], Ok (Some 2022)).
Proof. reflexivity. Qed.

(** ** Integers and their decimal form *)

Module PyFacts.
Import Py.

Lemma digit_not_space (c : ascii) : is_digit c = true -> is_space c = false.
Proof.
  destruct c as [[] [] [] [] [] [] [] []]; simpl; intros H;
    solve [discriminate H | reflexivity].
Qed.

Lemma digit_not_underscore (c : ascii) :
  is_digit c = true -> Ascii.eqb c "_" = false.
Proof.
  destruct c as [[] [] [] [] [] [] [] []]; simpl; intros H;
    solve [discriminate H | reflexivity].
Qed.

Lemma split_sign_digit (c : ascii) (r : string) :
  is_digit c = true -> split_sign (String c r) = (1, String c r).
Proof.
  destruct c as [[] [] [] [] [] [] [] []]; simpl; intros H;
    solve [discriminate H | reflexivity].
Qed.

Lemma minus_not_digit : is_digit "-" = false.
Proof. reflexivity. Qed.

Lemma dot_not_digit : is_digit "." = false.
Proof. reflexivity. Qed.

Lemma uint_all_digits (d : uint) :
  all_digits (NilEmpty.string_of_uint d) = true.
Proof. induction d; simpl; auto. Qed.

Lemma uint_nonempty (d : uint) :
  d <> Nil ->
  exists c r, NilEmpty.string_of_uint d = String c r /\ is_digit c = true.
Proof.
  destruct d; intros H; try (now destruct H); simpl; eauto.
Qed.

Lemma lstrip_digits (c : ascii) (r : string) :
  is_digit c = true -> lstrip (String c r) = String c r.
Proof. intros H. simpl. now rewrite digit_not_space. Qed.

Lemma rstrip_digits (s : string) : all_digits s = true -> rstrip s = s.
Proof.
  induction s as [|c r IH]; [reflexivity|].
  simpl. intros H. apply andb_prop in H as [Hc Hr].
  rewrite (IH Hr). destruct r; [|reflexivity].
  now rewrite digit_not_space.
Qed.

Lemma int_body_digits (s : string) (b : bool) :
  all_digits s = true -> s <> EmptyString -> int_body b s = Some s.
Proof.
  revert b. induction s as [|c r IH]; intros b H Hne; [now destruct Hne|].
  simpl in *. apply andb_prop in H as [Hc Hr]. rewrite Hc.
  destruct r as [|c' r'].
  - reflexivity.
  - rewrite (IH true Hr); [reflexivity | discriminate].
Qed.

(** [int] reads a run of digits as the number it denotes. *)
Lemma int_digits (d : uint) :
  d <> Nil -> int (NilEmpty.string_of_uint d) = Some (Z.of_uint d).
Proof.
  intros Hd. destruct (uint_nonempty d Hd) as (c & r & E & Hc).
  pose proof (uint_all_digits d) as Hall.
  unfold int, strip. rewrite E in *.
  rewrite (lstrip_digits c r Hc), (rstrip_digits _ Hall).
  rewrite (split_sign_digit c r Hc).
  rewrite (int_body_digits _ false Hall) by discriminate.
  unfold of_digits. rewrite <- E, NilEmpty.usu. simpl.
  destruct (Z.of_uint d); reflexivity.
Qed.

Lemma str_nonneg (z : Z) :
  0 <= z ->
  exists d, d <> Nil /\ str z = NilEmpty.string_of_uint d /\ Z.of_uint d = z.
Proof.
  intros Hz. destruct z as [|p|p]; [| |lia].
  - exists (D0 Nil). repeat split; discriminate.
  - exists (Pos.to_uint p). pose proof (Unsigned.to_uint_nonnil p) as Hn.
    repeat split; [assumption | |].
    + unfold str. simpl. destruct (Pos.to_uint p); try reflexivity.
      now destruct Hn.
    + unfold Z.of_uint. now rewrite Unsigned.of_to.
Qed.

Lemma str_neg (z : Z) : z < 0 -> exists s, str z = String "-" s.
Proof.
  intros Hz. destruct z as [|p|p]; try lia. unfold str. simpl. eauto.
Qed.

(** [int(str(z)) == z] for a natural number [z]. *)
Lemma int_str (z : Z) : 0 <= z -> int (str z) = Some z.
Proof.
  intros Hz. destruct (str_nonneg z Hz) as (d & Hd & -> & <-).
  now apply int_digits.
Qed.

Lemma or0_id (z : Z) : or0 z = z.
Proof. unfold or0. destruct (Z.eqb_spec z 0); congruence. Qed.

End PyFacts.

(** ** The [Version] type *)

Module VersionFacts.
Import Py PyFacts VersionM.

(** *** The pattern *)

Lemma span_digits_app (ds rest : string) :
  all_digits ds = true -> no_digit_ahead rest = true ->
  span_digits (ds ++ rest) = (ds, rest).
Proof.
  intros Hds Hrest. induction ds as [|c r IH]; simpl in *.
  - destruct rest as [|c r]; [reflexivity|].
    simpl in Hrest. apply negb_true_iff in Hrest. simpl. now rewrite Hrest.
  - apply andb_prop in Hds as [Hc Hr]. now rewrite Hc, (IH Hr).
Qed.

Lemma span_digits_all (ds : string) :
  all_digits ds = true -> span_digits ds = (ds, EmptyString).
Proof.
  intros H. induction ds as [|c r IH]; simpl in *; [reflexivity|].
  apply andb_prop in H as [Hc Hr]. now rewrite Hc, (IH Hr).
Qed.

Lemma match_digits_uint (d : uint) (rest : string) :
  d <> Nil -> no_digit_ahead rest = true ->
  match_digits (NilEmpty.string_of_uint d ++ rest)
  = Some (NilEmpty.string_of_uint d, rest).
Proof.
  intros Hd Hrest. unfold match_digits.
  rewrite (span_digits_app _ _ (uint_all_digits d) Hrest).
  destruct (uint_nonempty d Hd) as (c & r & -> & _). reflexivity.
Qed.

Lemma match_digits_no_digit (s : string) :
  no_digit_ahead s = true -> match_digits s = None.
Proof.
  destruct s as [|c r]; [reflexivity|]. simpl. intros H.
  apply negb_true_iff in H. unfold match_digits. simpl. now rewrite H.
Qed.

(** A match only needs a digit in front. *)
Lemma regex_match_iff (s : string) :
  regex_match s = None <-> no_digit_ahead s = true.
Proof.
  split.
  - destruct s as [|c r]; [reflexivity|]. unfold regex_match, match_digits.
    simpl. destruct (is_digit c); [|reflexivity].
    destruct (span_digits r) as [d rest].
    destruct (match_opt_group rest) as [mi r2].
    destruct (match_opt_group r2). discriminate.
  - intros H. unfold regex_match. now rewrite (match_digits_no_digit s H).
Qed.

(** The patch group takes part in a match only if the minor group does. *)
Lemma regex_patch_needs_minor (s : string) (g : groups) :
  regex_match s = Some g -> g_minor g = None -> g_patch g = None.
Proof.
  unfold regex_match. destruct (match_digits s) as [[ma r1]|]; [|discriminate].
  unfold match_opt_group at 1.
  destruct (match_sep_digits r1) as [[d rest]|] eqn:E.
  - destruct (match_opt_group rest). intros [= <-]. discriminate.
  - unfold match_opt_group. rewrite E. intros [= <-]. reflexivity.
Qed.

(** *** [parse] *)

(** [parse] returns only when the three groups took part in the match: a
    missing minor or patch component raises [TypeError]. *)
Lemma parse_Ok_groups (s : string) (v : Version) :
  parse s = Ok v ->
  exists g mi pa,
    regex_match s = Some g /\ g_minor g = Some mi /\ g_patch g = Some pa.
Proof.
  unfold parse. destruct (regex_match s) as [g|]; [|discriminate].
  destruct (int_of_group (Some (g_major g))); [|discriminate].
  destruct (g_minor g) as [mi|] eqn:Emi; [|discriminate].
  destruct (g_patch g) as [pa|] eqn:Epa; simpl.
  - intros _. exists g, mi, pa. auto.
  - destruct (int mi); discriminate.
Qed.

Lemma span_digits_fst (s : string) :
  all_digits (fst (span_digits s)) = true.
Proof.
  induction s as [|a s IH]; simpl; [reflexivity|].
  destruct (is_digit a) eqn:Ha; [|reflexivity].
  destruct (span_digits s) as [d r]. simpl in *. now rewrite Ha.
Qed.

Lemma match_digits_all (s ds rest : string) :
  match_digits s = Some (ds, rest) ->
  all_digits ds = true /\ ds <> EmptyString.
Proof.
  unfold match_digits. pose proof (span_digits_fst s) as H.
  destruct (span_digits s) as [d r]. simpl in H.
  destruct d as [|c d']; [discriminate|]. intros [= <- <-].
  split; [assumption | discriminate].
Qed.

(** A run of digits is always an integer literal. *)
Lemma int_all_digits (ds : string) :
  all_digits ds = true -> ds <> EmptyString -> exists z, int ds = Some z.
Proof.
  intros Hall Hne. destruct ds as [|c r]; [now destruct Hne|].
  pose proof Hall as Hall'. simpl in Hall'.
  apply andb_prop in Hall' as [Hc _].
  unfold int, strip. rewrite (lstrip_digits c r Hc), (rstrip_digits _ Hall).
  rewrite (split_sign_digit c r Hc).
  rewrite (int_body_digits _ false Hall) by discriminate.
  unfold of_digits.
  assert (H : forall s, all_digits s = true ->
                        exists d, NilEmpty.uint_of_string s = Some d).
  { clear. induction s as [|a s IH]; simpl; [eauto|]. intros H.
    apply andb_prop in H as [Ha Hs]. destruct (IH Hs) as [d ->].
    destruct a as [[] [] [] [] [] [] [] []]; simpl in *;
      solve [discriminate Ha | eauto]. }
  destruct (H _ Hall) as [d ->]. simpl. eauto.
Qed.

Lemma match_sep_digits_all (s ds rest : string) :
  match_sep_digits s = Some (ds, rest) ->
  all_digits ds = true /\ ds <> EmptyString.
Proof.
  unfold match_sep_digits. destruct s as [|c r]; [discriminate|].
  destruct (Ascii.eqb c "010"); [discriminate|]. apply match_digits_all.
Qed.

(** Every group that took part in a match holds an integer literal. *)
Lemma regex_groups_int (s : string) (g : groups) :
  regex_match s = Some g ->
  (exists z, int (g_major g) = Some z)
  /\ (forall mi, g_minor g = Some mi -> exists z, int mi = Some z)
  /\ (forall pa, g_patch g = Some pa -> exists z, int pa = Some z).
Proof.
  unfold regex_match.
  destruct (match_digits s) as [[ma r1]|] eqn:E1; [|discriminate].
  assert (Hma : exists z, int ma = Some z).
  { destruct (match_digits_all _ _ _ E1). now apply int_all_digits. }
  assert (Hsep : forall r ds rest, match_sep_digits r = Some (ds, rest) ->
                                   exists z, int ds = Some z).
  { intros r ds rest E. destruct (match_sep_digits_all _ _ _ E).
    now apply int_all_digits. }
  unfold match_opt_group.
  destruct (match_sep_digits r1) as [[mi r2]|] eqn:E2.
  - destruct (match_sep_digits r2) as [[pa r3]|] eqn:E3; intros [= <-]; simpl.
    + split; [assumption|]. split; intros x [= <-]; eauto.
    + split; [assumption|]. split; [intros x [= <-]; eauto | discriminate].
  - rewrite E2. intros [= <-]. simpl.
    split; [assumption|]. split; discriminate.
Qed.

(** The outcomes of [parse]: [ValueError] without a match, [TypeError] when
    the minor or the patch group is missing, a version otherwise. *)
Lemma parse_cases (s : string) :
  (regex_match s = None /\ parse s = Raise ValueError)
  \/ (exists g, regex_match s = Some g
                /\ (g_minor g = None \/ g_patch g = None)
                /\ parse s = Raise TypeError)
  \/ (exists g mi pa v, regex_match s = Some g
                /\ g_minor g = Some mi /\ g_patch g = Some pa
                /\ parse s = Ok v).
Proof.
  unfold parse. destruct (regex_match s) as [g|] eqn:E; [right | now left].
  destruct (regex_groups_int s g E) as ([zma Ema] & Hmi & Hpa).
  simpl. rewrite Ema. simpl.
  destruct (g_minor g) as [mi|] eqn:Emi.
  - destruct (Hmi mi eq_refl) as [zmi Ezmi]. simpl. rewrite Ezmi. simpl.
    destruct (g_patch g) as [pa|] eqn:Epa.
    + destruct (Hpa pa eq_refl) as [zpa Ezpa]. simpl. rewrite Ezpa. simpl.
      right. exists g, mi, pa. eauto.
    + left. exists g. auto.
  - left. exists g. auto.
Qed.

Lemma parse_no_RuntimeError (s : string) : parse s <> Raise RuntimeError.
Proof.
  destruct (parse_cases s) as [[_ H]|[(g & _ & _ & H)|(g & mi & pa & v & _ & _ & _ & H)]];
    rewrite H; discriminate.
Qed.

(** *** [str] and [parse] *)

Lemma append_empty_r (s : string) : (s ++ "")%string = s.
Proof. induction s as [|c r IH]; simpl; [reflexivity | now rewrite IH]. Qed.

Lemma match_opt_group_dot (d : uint) (rest : string) :
  d <> Nil -> no_digit_ahead rest = true ->
  match_opt_group (String "." (NilEmpty.string_of_uint d ++ rest))
  = (Some (NilEmpty.string_of_uint d), rest).
Proof.
  intros Hd Hrest. unfold match_opt_group, match_sep_digits.
  change (Ascii.eqb "." "010") with false. cbv iota.
  now rewrite (match_digits_uint d rest Hd Hrest).
Qed.

(** [parse(str(v)) == v] for a version of natural numbers. *)
Lemma to_str_nonneg (v : Version) :
  0 <= major v -> 0 <= minor v -> 0 <= patch v -> parse (to_str v) = Ok v.
Proof.
  intros Hma Hmi Hpa. destruct v as [ma mi pa]. simpl in *.
  destruct (str_nonneg ma Hma) as (dma & Nma & Sma & Vma).
  destruct (str_nonneg mi Hmi) as (dmi & Nmi & Smi & Vmi).
  destruct (str_nonneg pa Hpa) as (dpa & Npa & Spa & Vpa).
  unfold parse, to_str, regex_match. cbn [major minor patch].
  rewrite Sma, Smi, Spa.
  rewrite <- (append_empty_r (NilEmpty.string_of_uint dpa)) at 1.
  repeat change ("." ++ ?x)%string with (String "." x).
  rewrite match_digits_uint by (assumption || reflexivity).
  rewrite match_opt_group_dot by (assumption || reflexivity).
  rewrite match_opt_group_dot by (assumption || reflexivity).
  cbn [g_major g_minor g_patch int_of_group].
  rewrite !int_digits by assumption. simpl.
  rewrite !or0_id. now rewrite Vma, Vmi, Vpa.
Qed.

(** A version whose string form parses is a version of natural numbers, and
    is read back unchanged. *)
Lemma parse_to_str_inv (v kv : Version) :
  parse (to_str v) = Ok kv -> kv = v.
Proof.
  intros H.
  destruct (Z.lt_ge_cases (major v) 0) as [Hma|Hma].
  { exfalso. destruct (str_neg _ Hma) as [s Es].
    unfold parse, to_str in H. rewrite Es in H.
    assert (R : regex_match (String "-" s ++ "." ++ str (minor v) ++ "."
                               ++ str (patch v))%string = None).
    { apply regex_match_iff. reflexivity. }
    rewrite R in H. discriminate. }
  destruct (str_nonneg _ Hma) as (dma & Nma & Sma & Vma).
  destruct (Z.lt_ge_cases (minor v) 0) as [Hmi|Hmi].
  { exfalso. destruct (str_neg _ Hmi) as [s Es].
    destruct (parse_Ok_groups _ _ H) as (g & mi & pa & Hg & Hgmi & _).
    unfold to_str, regex_match in Hg. rewrite Sma, Es in Hg.
    repeat change ("." ++ ?x)%string with (String "." x) in Hg.
    rewrite match_digits_uint in Hg by (assumption || reflexivity).
    unfold match_opt_group at 1 in Hg. unfold match_sep_digits at 1 in Hg.
    change (Ascii.eqb "." "010") with false in Hg. cbv iota in Hg.
    rewrite match_digits_no_digit in Hg by reflexivity.
    destruct (match_opt_group _) in Hg. injection Hg as <-. discriminate. }
  destruct (str_nonneg _ Hmi) as (dmi & Nmi & Smi & Vmi).
  destruct (Z.lt_ge_cases (patch v) 0) as [Hpa|Hpa].
  { exfalso. destruct (str_neg _ Hpa) as [s Es].
    destruct (parse_Ok_groups _ _ H) as (g & mi & pa & Hg & _ & Hgpa).
    unfold to_str, regex_match in Hg. rewrite Sma, Smi, Es in Hg.
    repeat change ("." ++ ?x)%string with (String "." x) in Hg.
    rewrite match_digits_uint in Hg by (assumption || reflexivity).
    rewrite match_opt_group_dot in Hg by (assumption || reflexivity).
    unfold match_opt_group, match_sep_digits in Hg.
    change (Ascii.eqb "." "010") with false in Hg. cbv iota in Hg.
    rewrite match_digits_no_digit in Hg by reflexivity.
    injection Hg as <-. discriminate. }
  rewrite (to_str_nonneg v Hma Hmi Hpa) in H. now injection H.
Qed.

(** *** [distance] *)

Lemma distance_self (a : Version) : distance a a = mkVersion 0 0 0.
Proof. unfold distance. now rewrite !Z.sub_diag. Qed.

Lemma distance_sym (a b : Version) : distance a b = distance b a.
Proof.
  unfold distance. f_equal; rewrite <- Z.abs_opp; f_equal; lia.
Qed.

(** *** The order *)

Ltac order_cases :=
  unfold lt, le, ltb in *; simpl in *;
  repeat match goal with
    | H : context [?a <? ?b] |- _ => destruct (Z.ltb_spec a b); simpl in H
    | H : context [?a =? ?b] |- _ => destruct (Z.eqb_spec a b); simpl in H
    | |- context [?a <? ?b] => destruct (Z.ltb_spec a b); simpl
    | |- context [?a =? ?b] => destruct (Z.eqb_spec a b); simpl
    end;
  try reflexivity; try discriminate; try lia.

(** The order is the lexicographic one: major before minor before patch. *)
Lemma lt_iff (a b : Version) :
  lt a b <->
  major a < major b
  \/ (major a = major b
      /\ (minor a < minor b \/ (minor a = minor b /\ patch a < patch b))).
Proof. destruct a, b. split; intros H; order_cases. Qed.

Lemma le_iff (a b : Version) : le a b <-> ~ lt b a.
Proof. unfold le, lt. destruct (ltb b a); split; congruence. Qed.

Lemma le_refl (a : Version) : le a a.
Proof. destruct a. order_cases. Qed.

Lemma lt_le_trans (a b c : Version) : lt a b -> le b c -> lt a c.
Proof. destruct a, b, c. intros H1 H2. order_cases. Qed.

Lemma le_lt_trans (a b c : Version) : le a b -> lt b c -> lt a c.
Proof. destruct a, b, c. intros H1 H2. order_cases. Qed.

Lemma le_trans (a b c : Version) : le a b -> le b c -> le a c.
Proof. destruct a, b, c. intros H1 H2. order_cases. Qed.

Lemma lt_le (a b : Version) : lt a b -> le a b.
Proof. destruct a, b. intros H. order_cases. Qed.

Lemma le_total (a b : Version) : le a b \/ le b a.
Proof.
  destruct (ltb b a) eqn:E; [right | now left].
  apply lt_le. exact E.
Qed.

End VersionFacts.

(** ** The nearest key *)

Module ClosestFacts.
Import VersionM VersionFacts.

(** From a current closest key on, the loop either keeps it, and then no
    remaining key is strictly nearer, or replaces it by the first of the
    remaining keys at the least distance, which is strictly nearer. *)
Lemma closest_loop_from (v : Version) (keys : list string) :
  forall cv0 cd0 cv cd,
    closest_loop v keys (Some cv0, Some cd0) = Ok (Some cv, Some cd) ->
    le cd cd0
    /\ (forall j kj vj, nth_error keys j = Some kj -> parse kj = Ok vj ->
                        le cd (distance v vj))
    /\ ((cv = cv0 /\ cd = cd0)
        \/ exists i key,
            nth_error keys i = Some key /\ parse key = Ok cv
            /\ cd = distance v cv /\ lt cd cd0
            /\ forall j kj vj, (j < i)%nat -> nth_error keys j = Some kj ->
                               parse kj = Ok vj -> lt cd (distance v vj)).
Proof.
  induction keys as [|key rest IH]; intros cv0 cd0 cv cd H.
  - injection H as <- <-. split; [apply le_refl|].
    split; [|now left]. intros [|j] kj vj Hj; discriminate Hj.
  - simpl in H. destruct (parse key) as [kv|e] eqn:Ek; [|discriminate].
    simpl in H. destruct (ltb (distance v kv) cd0) eqn:Elt.
    + destruct (IH _ _ _ _ H) as (Hle & Hall & Hcase).
      assert (Hlt0 : lt cd cd0) by (eapply le_lt_trans; [exact Hle | exact Elt]).
      split; [now apply lt_le|]. split.
      * intros [|j] kj vj Hj Hp; simpl in Hj.
        -- injection Hj as <-. rewrite Ek in Hp. injection Hp as <-. exact Hle.
        -- eapply Hall; eassumption.
      * right. destruct Hcase as [[-> ->]|(i & k & Hi & Hp & Hd & Hlt & Hbefore)].
        -- exists 0%nat, key. repeat split; auto. intros j kj vj Hj. lia.
        -- exists (S i), k. repeat split; auto.
           intros [|j] kj vj Hj Hn Hpj; simpl in Hn.
           ++ injection Hn as <-. rewrite Ek in Hpj. injection Hpj as <-.
              exact Hlt.
           ++ eapply Hbefore; [|eassumption|eassumption]. lia.
    + destruct (IH _ _ _ _ H) as (Hle & Hall & Hcase).
      split; [assumption|]. split.
      * intros [|j] kj vj Hj Hp; simpl in Hj.
        -- injection Hj as <-. rewrite Ek in Hp. injection Hp as <-.
           eapply le_trans; [exact Hle | exact Elt].
        -- eapply Hall; eassumption.
      * destruct Hcase as [[-> ->]|(i & k & Hi & Hp & Hd & Hlt & Hbefore)];
          [now left | right].
        exists (S i), k. repeat split; auto.
        intros [|j] kj vj Hj Hn Hpj; simpl in Hn.
        -- injection Hn as <-. rewrite Ek in Hpj. injection Hpj as <-.
           eapply lt_le_trans; [exact Hlt | exact Elt].
        -- eapply Hbefore; [|eassumption|eassumption]. lia.
Qed.

(** The loop raises exactly when a key does not parse. *)
Lemma closest_loop_total (v : Version) (keys : list string) :
  Forall (fun k => exists kv, parse k = Ok kv) keys ->
  forall c, exists c', closest_loop v keys c = Ok c'
                       /\ (keys <> [] -> exists cv cd, c' = (Some cv, Some cd))
                       /\ (forall cv cd, c = (Some cv, Some cd) ->
                           exists cv' cd', c' = (Some cv', Some cd')).
Proof.
  induction 1 as [|k keys [kv Ek] _ IH]; intros c.
  - exists c. split; [reflexivity|]. split; [congruence | eauto].
  - simpl. rewrite Ek. simpl.
    assert (Hnew : exists c', closest_loop v keys
                                (Some kv, Some (distance v kv)) = Ok c'
                              /\ exists cv cd, c' = (Some cv, Some cd)).
    { destruct (IH (Some kv, Some (distance v kv))) as (c' & E & _ & Hs).
      exists c'. split; [assumption|]. eapply Hs. reflexivity. }
    destruct c as [[cv0|] [cd0|]];
      try (destruct Hnew as (c' & E & cv & cd & ->); exists (Some cv, Some cd);
           split; [assumption|]; split; intros; try discriminate; eauto).
    destruct (ltb (distance v kv) cd0).
    + destruct Hnew as (c' & E & cv & cd & ->). exists (Some cv, Some cd).
      split; [assumption|]. split; intros; eauto.
    + destruct (IH (Some cv0, Some cd0)) as (c' & E & _ & Hs).
      destruct (Hs _ _ eq_refl) as (cv & cd & ->). exists (Some cv, Some cd).
      split; [assumption|]. split; intros; eauto.
Qed.

Lemma closest_loop_keys_parse (v : Version) (keys : list string) :
  forall c c', closest_loop v keys c = Ok c' ->
               Forall (fun k => exists kv, parse k = Ok kv) keys.
Proof.
  induction keys as [|k keys IH]; intros c c' H; [constructor|].
  simpl in H. destruct (parse k) as [kv|] eqn:Ek; [|discriminate].
  simpl in H. constructor; [eauto|].
  destruct c as [[cv0|] [cd0|]]; try (eapply IH; eassumption).
  destruct (ltb (distance v kv) cd0); eapply IH; eassumption.
Qed.

End ClosestFacts.

(** ** The ancestor walk *)

Module PathFacts.

Lemma parent_dirs_from_unfold (path : PurePath) :
  parent_dirs_from path =
  match parent path with
  | Self => [path]
  | Fresh p => path :: parent_dirs_from p
  end.
Proof.
  funelim (parent_dirs_from path);
    match goal with E : parent _ = _ |- _ => now rewrite E end.
Qed.

Lemma removelast_length (x : string) (xs : list string) :
  S (List.length (removelast (x :: xs))) = List.length (x :: xs).
Proof.
  revert x. induction xs as [|d ds IH]; intros x; [reflexivity|].
  change (removelast (x :: d :: ds)) with (x :: removelast (d :: ds)).
  simpl List.length. f_equal. apply IH.
Qed.

Lemma parent_Fresh (path p : PurePath) :
  parent path = Fresh p ->
  S (List.length (tail p)) = List.length (tail path)
  /\ anchor p = anchor path /\ parent_is_self path = false.
Proof.
  unfold parent_is_self, parent.
  destruct (tail path) as [|c cs]; [discriminate|]. intros [= <-].
  simpl. split; [|split; reflexivity]. apply (removelast_length c cs).
Qed.

Lemma parent_Self (path : PurePath) :
  parent path = Self -> tail path = [] /\ parent_is_self path = true.
Proof.
  unfold parent_is_self, parent. destruct (tail path); [auto | discriminate].
Qed.

(** The walk from [path]: it starts at [path], each directory is followed by
    its parent, the last directory is its own parent and no directory before
    it is, and there is one directory for the anchor and one for each
    component below it. *)
Lemma parent_dirs_from_spec (n : nat) :
  forall path, List.length (tail path) = n ->
    hd_error (parent_dirs_from path) = Some path
    /\ (exists init root,
          parent_dirs_from path = init ++ [root]
          /\ parent_is_self root = true
          /\ Forall (fun d => parent_is_self d = false) init)
    /\ (forall i d d', nth_error (parent_dirs_from path) i = Some d ->
                       nth_error (parent_dirs_from path) (S i) = Some d' ->
                       parent d = Fresh d')
    /\ List.length (parent_dirs_from path) = S n.
Proof.
  induction n as [|n IH]; intros path Hn;
    rewrite parent_dirs_from_unfold; destruct (parent path) as [|p] eqn:E.
  - destruct (parent_Self _ E) as [_ Hs]. split; [reflexivity|]. split.
    + exists [], path. repeat split; [assumption | constructor].
    + split; [|reflexivity]. intros [|i] d d' _ H; discriminate H.
  - destruct (parent_Fresh _ _ E) as (Hl & _). rewrite Hn in Hl. discriminate.
  - destruct (parent_Self _ E) as [Ht _]. rewrite Ht in Hn. discriminate.
  - destruct (parent_Fresh _ _ E) as (Hl & _ & Hns).
    assert (Hp : List.length (tail p) = n) by (rewrite Hn in Hl; congruence).
    destruct (IH p Hp) as (Hhd & (init & root & Hdirs & Hroot & Hinit) & Hstep & Hlen).
    split; [reflexivity|]. split; [|split].
    + exists (path :: init), root. rewrite Hdirs.
      repeat split; [assumption | now constructor].
    + intros [|i] d d' Hi Hi'; simpl in Hi, Hi'.
      * injection Hi as <-.
        destruct (parent_dirs_from p); simpl in *; congruence.
      * eapply Hstep; eassumption.
    + simpl. now rewrite Hlen.
Qed.

End PathFacts.

(** ** Runs *)

Module RunFacts.

Lemma run_eta {A} (m : M A) (env : Env) : m env = (trace m env, result m env).
Proof. unfold trace, result. now destruct (m env). Qed.

Lemma result_bind {A B} (m : M A) (k : A -> M B) (env : Env) :
  result (bind m k) env
  = match result m env with
    | Ok a => result (k a) env
    | Raise e => Raise e
    end.
Proof.
  unfold result, bind. destruct (m env) as [t [a|e]]; simpl; [|reflexivity].
  now destruct (k a env).
Qed.

Lemma trace_bind {A B} (m : M A) (k : A -> M B) (env : Env) :
  trace (bind m k) env
  = trace m env ++ match result m env with
                   | Ok a => trace (k a) env
                   | Raise _ => []
                   end.
Proof.
  unfold trace, result, bind. destruct (m env) as [t [a|e]]; simpl.
  - now destruct (k a env).
  - now rewrite app_nil_r.
Qed.

(** What each function logs. *)

Lemma installed_maya_versions_run (env : Env) :
  installed_maya_versions env
  = ([Call installed_maya_versions_fn],
     match registry_maya_subkeys env with
     | Some subkeys => Ok (enum_versions subkeys)
     | None => Raise OSError
     end).
Proof.
  unfold installed_maya_versions, bind, log, ask. simpl.
  now destruct (registry_maya_subkeys env).
Qed.

Lemma ensure_installed_run (env : Env) (mv : option Z) :
  ensure_installed mv env
  = ([Call installed_maya_versions_fn],
     match registry_maya_subkeys env with
     | Some subkeys =>
         Ok (if py_in mv (enum_versions subkeys) then mv else None)
     | None => Raise OSError
     end).
Proof.
  unfold ensure_installed, bind. rewrite installed_maya_versions_run.
  destruct (registry_maya_subkeys env) as [ks|]; [|reflexivity].
  now destruct (py_in mv (enum_versions ks)).
Qed.

Lemma latest_maya_version_run (env : Env) :
  latest_maya_version env
  = ([Call latest_maya_version_fn; Call installed_maya_versions_fn],
     match registry_maya_subkeys env with
     | Some subkeys => py_max (enum_versions subkeys)
     | None => Raise OSError
     end).
Proof.
  unfold latest_maya_version, bind, log, lift.
  rewrite installed_maya_versions_run.
  now destruct (registry_maya_subkeys env).
Qed.

Lemma py_version_from_shebang_run (env : Env) :
  py_version_from_shebang env = ([Call py_version_from_shebang_fn], Ok None).
Proof. reflexivity. Qed.

Lemma py_version_from_virtualenv_run (env : Env) :
  py_version_from_virtualenv env
  = ([Call py_version_from_virtualenv_fn],
     match environ_VIRTUAL_ENV env with
     | Some _ =>
         match VersionM.parse (python_version_of_platform env) with
         | Ok v => Ok (Some v)
         | Raise e => Raise e
         end
     | None => Ok None
     end).
Proof.
  unfold py_version_from_virtualenv, bind, log, ask, lift, ret. simpl.
  destruct (environ_VIRTUAL_ENV env); [|reflexivity].
  now destruct (VersionM.parse _).
Qed.

Lemma py_version_from_python_version_run (env : Env) :
  py_version_from_python_version env
  = ([Call py_version_from_python_version_fn],
     first_pin ".python-version" read_python_version env
       (parent_dirs_from (resolve env "."))).
Proof. reflexivity. Qed.

Lemma maya_version_from_maya_version_run (env : Env) :
  maya_version_from_maya_version env
  = ([Call maya_version_from_maya_version_fn],
     first_pin ".maya-version" read_maya_version env
       (parent_dirs_from (resolve env "."))).
Proof. reflexivity. Qed.

(** [pyver_to_mayaver] consults the installed releases at most once, and
    only when the gate passes. *)
Lemma pyver_to_mayaver_in_run (table : list (string * Z)) (v : Version)
    (env : Env) :
  pyver_to_mayaver_in table v env
  = match closest_loop v (dict_keys table) (None, None) with
    | Raise e => ([], Raise e)
    | Ok (Some cv, _) =>
        if (major v =? major cv) && (minor v =? minor cv)
        then ensure_installed (dict_get table (VersionM.to_str v)) env
        else ([], Ok None)
    | Ok (None, _) => ([], Ok None)
    end.
Proof.
  unfold pyver_to_mayaver_in, bind, lift.
  destruct (closest_loop v (dict_keys table) (None, None)) as [[[cv|] cd]|e];
    simpl; try reflexivity.
  destruct ((major v =? major cv) && (minor v =? minor cv)); [|reflexivity].
  rewrite ensure_installed_run.
  destruct (registry_maya_subkeys env) as [ks|]; [|reflexivity].
  destruct (py_in _ _); [|reflexivity].
  now destruct (dict_get table (VersionM.to_str v)).
Qed.

Lemma dict_get_In (table : list (string * Z)) (k : string) (r : Z) :
  dict_get table k = Some r -> In k (dict_keys table).
Proof.
  induction table as [|[k' v'] table IH]; simpl; [discriminate|].
  destruct (String.eqb_spec k k') as [->|]; [now left | right; auto].
Qed.

Lemma py_in_In (x : option Z) (l : list Z) :
  py_in x l = true -> exists v, x = Some v /\ In v l.
Proof.
  destruct x as [v|]; [|discriminate]. simpl. intros H.
  apply existsb_exists in H as (y & Hy & E). apply Z.eqb_eq in E. subst.
  eauto.
Qed.

End RunFacts.

(** ** The two loops of [resolve_version] *)

Module ChainFacts.
Import RunFacts.

Lemma run_py_hit (env : Env) (p : M (option Version))
    (rest : list (M (option Version))) (v : Version) (r : Z) :
  result p env = Ok (Some v) ->
  result (pyver_to_mayaver v) env = Ok (Some r) ->
  run_py_version_resolvers (p :: rest) env = (probe_events env p, Ok (Some r)).
Proof.
  unfold probe_events, trace, result. simpl. unfold bind.
  destruct (p env) as [t rp]. simpl. intros ->.
  destruct (pyver_to_mayaver v env) as [t' rv]. simpl. intros ->.
  unfold ret. simpl. now rewrite app_nil_r.
Qed.

Lemma run_py_skip (env : Env) (p : M (option Version))
    (rest : list (M (option Version))) :
  no_match env p ->
  run_py_version_resolvers (p :: rest) env
  = (probe_events env p ++ trace (run_py_version_resolvers rest) env,
     result (run_py_version_resolvers rest) env).
Proof.
  unfold no_match, probe_events, trace, result. simpl. unfold bind.
  destruct (p env) as [t rp]. simpl. intros [->|(v & -> & Hv)].
  - rewrite app_nil_r. now destruct (run_py_version_resolvers rest env).
  - destruct (pyver_to_mayaver v env) as [t' rv]. simpl in *. subst rv.
    destruct (run_py_version_resolvers rest env). now rewrite app_assoc.
Qed.

Lemma run_py_raise (env : Env) (p : M (option Version))
    (rest : list (M (option Version))) (e : exn) :
  result p env = Raise e ->
  run_py_version_resolvers (p :: rest) env = (trace p env, Raise e).
Proof.
  unfold trace, result. simpl. unfold bind.
  destruct (p env) as [t rp]. simpl. now intros ->.
Qed.

Lemma run_py_prefix (env : Env) (pre rest : list (M (option Version))) :
  Forall (no_match env) pre ->
  run_py_version_resolvers (pre ++ rest) env
  = (flat_map (probe_events env) pre
     ++ trace (run_py_version_resolvers rest) env,
     result (run_py_version_resolvers rest) env).
Proof.
  induction 1 as [|p pre Hp _ IH].
  - simpl. apply run_eta.
  - change ((p :: pre) ++ rest) with (p :: (pre ++ rest)).
    rewrite (run_py_skip env p _ Hp). unfold trace, result. rewrite IH.
    simpl. now rewrite app_assoc.
Qed.

Lemma run_py_all (env : Env) (ps : list (M (option Version))) :
  Forall (no_match env) ps ->
  run_py_version_resolvers ps env
  = (flat_map (probe_events env) ps, Ok None).
Proof.
  intros H. rewrite <- (app_nil_r ps) at 1. rewrite (run_py_prefix env ps [] H).
  simpl. now rewrite app_nil_r.
Qed.

(** [resolve_version], from the outcome of its first loop. *)
Lemma resolve_version_run (env : Env) :
  resolve_version env
  = match run_py_version_resolvers py_version_resolvers env with
    | (t, Ok (Some r)) => (t, Ok (Some r))
    | (t, Ok None) =>
        (t ++ trace (run_maya_version_resolvers maya_version_resolvers) env,
         result (run_maya_version_resolvers maya_version_resolvers) env)
    | (t, Raise e) => (t, Raise e)
    end.
Proof.
  unfold resolve_version, trace, result. unfold bind at 1.
  destruct (run_py_version_resolvers py_version_resolvers env)
    as [t [[r|]|e]]; cbv beta iota.
  - unfold ret. cbv beta iota. now rewrite app_nil_r.
  - now destruct (run_maya_version_resolvers maya_version_resolvers env).
  - reflexivity.
Qed.

(** The second loop. *)
Lemma run_maya_run (env : Env) :
  run_maya_version_resolvers maya_version_resolvers env
  = match result maya_version_from_maya_version env with
    | Ok (Some n) => ([Call maya_version_from_maya_version_fn], Ok (Some n))
    | Ok None =>
        (Call maya_version_from_maya_version_fn :: trace latest_maya_version env,
         match result latest_maya_version env with
         | Ok n => Ok (Some n)
         | Raise e => Raise e
         end)
    | Raise e => ([Call maya_version_from_maya_version_fn], Raise e)
    end.
Proof.
  unfold maya_version_resolvers, run_maya_version_resolvers, result, trace.
  unfold bind at 1. rewrite maya_version_from_maya_version_run. simpl.
  destruct (first_pin _ _ _ _) as [[n|]|e]; simpl; try reflexivity.
  unfold bind. destruct (latest_maya_version env) as [t [n|e]]; simpl.
  - now rewrite !app_nil_r.
  - reflexivity.
Qed.

(** The decompositions of [py_version_resolvers] around a probe that
    returned a version. *)
Lemma py_version_resolvers_split (env : Env)
    (pre post : list (M (option Version))) (p : M (option Version))
    (v : Version) :
  py_version_resolvers = pre ++ p :: post ->
  result p env = Ok (Some v) ->
  (pre = [py_version_from_shebang] /\ p = py_version_from_virtualenv)
  \/ (pre = [py_version_from_shebang; py_version_from_virtualenv]
      /\ p = py_version_from_python_version).
Proof.
  unfold py_version_resolvers. intros E Hp.
  destruct pre as [|a [|b [|c pre]]]; simpl in E.
  - injection E as <- _. discriminate Hp.
  - injection E as <- <- _. now left.
  - injection E as <- <- <- _. now right.
  - injection E as _ _ _ E. destruct pre; discriminate E.
Qed.

(** [pyver_to_mayaver] logs nothing but a query of the installed
    releases. *)
Lemma pyver_to_mayaver_trace (table : list (string * Z)) (v : Version)
    (env : Env) :
  trace (pyver_to_mayaver_in table v) env = []
  \/ trace (pyver_to_mayaver_in table v) env = [Call installed_maya_versions_fn].
Proof.
  unfold trace. rewrite pyver_to_mayaver_in_run.
  destruct (closest_loop _ _ _) as [[[cv|] cd]|e]; auto.
  destruct (_ && _); auto. rewrite ensure_installed_run. auto.
Qed.

Lemma pyver_to_mayaver_Some_trace (table : list (string * Z)) (v : Version)
    (env : Env) (r : Z) :
  result (pyver_to_mayaver_in table v) env = Ok (Some r) ->
  trace (pyver_to_mayaver_in table v) env = [Call installed_maya_versions_fn].
Proof.
  unfold trace, result. rewrite pyver_to_mayaver_in_run.
  destruct (closest_loop _ _ _) as [[[cv|] cd]|e]; try discriminate.
  destruct (_ && _); [|discriminate]. now rewrite ensure_installed_run.
Qed.

End ChainFacts.

(** * The claims *)

Import VersionM VersionFacts ClosestFacts PathFacts RunFacts ChainFacts.

(** ** C1: components missing from a version string *)

(** C1.  The claim is that a string matching the pattern without its minor
    or patch component parses, each absent component being 0.  In the code
    the group of an absent component is [None] and [int(None)] raises before
    [or 0] is reached: [parse "3.9"] and [parse "3"] raise [TypeError], and so
    does every string whose match lacks the minor or the patch group. *)
Theorem C1_missing_component_raises_TypeError :
  parse "3.9" = Raise TypeError
  /\ parse "3" = Raise TypeError
  /\ (forall s g, regex_match s = Some g ->
                  g_minor g = None \/ g_patch g = None ->
                  parse s = Raise TypeError).
Proof.
  split; [reflexivity|]. split; [reflexivity|].
  intros s g Hg Hnone.
  destruct (parse_cases s)
    as [[E _]|[(g' & E & _ & H)|(g' & mi & pa & v & E & Hmi & Hpa & _)]].
  - congruence.
  - exact H.
  - assert (g' = g) by congruence. subst g'.
    destruct Hnone; congruence.
Qed.

(** ** C2: the ancestor walk *)

(** C2.  For every starting path, [parent_dirs] yields a finite sequence:
    its first element is the resolved starting path, each element is followed
    by its parent, its last element is its own parent (the root) and no
    earlier element is; the sequence has one element more than the resolved
    path has components below its anchor. *)
Theorem C2_parent_dirs_finite_up_to_root (path : string) (env : Env) :
  exists dirs init root,
    parent_dirs path env = ([], Ok dirs)
    /\ hd_error dirs = Some (resolve env path)
    /\ dirs = init ++ [root]
    /\ parent_is_self root = true
    /\ Forall (fun d => parent_is_self d = false) init
    /\ (forall i d d', nth_error dirs i = Some d ->
                       nth_error dirs (S i) = Some d' -> parent d = Fresh d')
    /\ List.length dirs = S (List.length (tail (resolve env path))).
Proof.
  destruct (parent_dirs_from_spec _ (resolve env path) eq_refl)
    as (Hhd & (init & root & Hdirs & Hroot & Hinit) & Hstep & Hlen).
  exists (parent_dirs_from (resolve env path)), init, root.
  repeat split; assumption.
Qed.

(** ** C3: no exact key, no match *)

(** C3, the claim at a sample environment.  The detected version is 3.9.2:
    the closest key of the default map is 3.9.7, the gate passes and
    ["3.9.2"] is no key.  The claim makes [pyver_to_mayaver] return no match;
    on a machine without the registry key of Maya the query of the installed
    releases, made once the gate has passed, raises [OSError]. *)
Lemma C3_counterexample :
  dict_get py_to_maya_map (to_str (mkVersion 3 9 2)) = None
  /\ closest_loop (mkVersion 3 9 2) (dict_keys py_to_maya_map) (None, None)
     = Ok (Some (mkVersion 3 9 7), Some (mkVersion 0 0 5))
  /\ pyver_to_mayaver (mkVersion 3 9 2) Sample.no_registry
     = ([Call installed_maya_versions_fn], Raise OSError).
Proof. repeat split; reflexivity. Qed.

(** C3, amended.  When the string form of the detected version is not a key
    of the version map, [pyver_to_mayaver] never returns a release, whatever
    the closest key is; and when the keys of the map parse and the installed
    releases can be listed, it returns no match. *)
Theorem C3_absent_exact_key_no_match (table : list (string * Z))
    (v : Version) (env : Env) :
  dict_get table (to_str v) = None ->
  (forall r, result (pyver_to_mayaver_in table v) env <> Ok (Some r))
  /\ (keys_parse table -> registry_maya_subkeys env <> None ->
      result (pyver_to_mayaver_in table v) env = Ok None).
Proof.
  intros Hget. unfold result. rewrite pyver_to_mayaver_in_run.
  rewrite ensure_installed_run, Hget. split.
  - intros r. destruct (closest_loop _ _ _) as [[[cv|] cd]|e]; try discriminate.
    destruct (_ && _); [|discriminate].
    destruct (registry_maya_subkeys env); discriminate.
  - intros Hkeys Hreg.
    destruct (closest_loop_total v _ Hkeys (None, None)) as (c & -> & _).
    destruct c as [[cv|] cd]; [|reflexivity].
    destruct (_ && _); [|reflexivity].
    destruct (registry_maya_subkeys env); [reflexivity | now destruct Hreg].
Qed.

Lemma py_to_maya_map_keys_parse : keys_parse py_to_maya_map.
Proof.
  unfold keys_parse. simpl. repeat constructor; eexists; reflexivity.
Qed.

(** On the default map the loop returns a closest key for every input. *)
Lemma closest_loop_default_total (v : Version) :
  exists cv cd,
    closest_loop v (dict_keys py_to_maya_map) (None, None)
    = Ok (Some cv, Some cd).
Proof.
  destruct (closest_loop_total v _ py_to_maya_map_keys_parse (None, None))
    as (c & E & Hne & _).
  destruct Hne as (cv & cd & ->); [discriminate|]. eauto.
Qed.

Lemma C3_witness :
  dict_get py_to_maya_map (to_str (mkVersion 3 9 2)) = None
  /\ result (pyver_to_mayaver (mkVersion 3 9 2)) Sample.venv_397 = Ok None.
Proof.
  split; [reflexivity|].
  apply (C3_absent_exact_key_no_match py_to_maya_map (mkVersion 3 9 2)
           Sample.venv_397).
  - reflexivity.
  - unfold keys_parse. simpl. repeat constructor; eexists; reflexivity.
  - discriminate.
Defined.

(** ** C4: what a returned release is *)

(** C4.  Whenever [pyver_to_mayaver] returns a release, that release is the
    entry of the map for a key whose version agrees with the input in major
    and minor, and it is one of [installed_maya_versions()]. *)
Theorem C4_returned_release_gated_and_installed (table : list (string * Z))
    (v : Version) (env : Env) (r : Z) :
  result (pyver_to_mayaver_in table v) env = Ok (Some r) ->
  exists key kv installed,
    dict_get table key = Some r
    /\ parse key = Ok kv
    /\ major kv = major v /\ minor kv = minor v
    /\ result installed_maya_versions env = Ok installed
    /\ In r installed.
Proof.
  unfold result. rewrite pyver_to_mayaver_in_run, installed_maya_versions_run.
  destruct (closest_loop v (dict_keys table) (None, None))
    as [[[cv|] cd]|e] eqn:Eloop; try discriminate.
  destruct (_ && _); [|discriminate].
  rewrite ensure_installed_run.
  destruct (registry_maya_subkeys env) as [ks|]; [|discriminate]. simpl.
  destruct (py_in _ _) eqn:Ein; [|discriminate].
  intros [= Hget]. apply py_in_In in Ein as (r' & Hr' & Hin).
  assert (r' = r) by congruence. subst r'.
  pose proof (closest_loop_keys_parse _ _ _ _ Eloop) as Hkeys.
  rewrite Forall_forall in Hkeys.
  destruct (Hkeys _ (dict_get_In _ _ _ Hget)) as [kv Ekv].
  pose proof (parse_to_str_inv _ _ Ekv) as ->.
  exists (to_str v), v, (enum_versions ks). auto 10.
Qed.

Lemma C4_witness :
  result (pyver_to_mayaver (mkVersion 3 9 7)) Sample.venv_397 = Ok (Some 2023)
  /\ exists key kv installed,
      dict_get py_to_maya_map key = Some 2023
      /\ parse key = Ok kv
      /\ major kv = 3 /\ minor kv = 9
      /\ result installed_maya_versions Sample.venv_397 = Ok installed
      /\ In 2023 installed.
Proof.
  split; [reflexivity|].
  apply (C4_returned_release_gated_and_installed py_to_maya_map
           (mkVersion 3 9 7) Sample.venv_397 2023).
  reflexivity.
Defined.

(** ** C5: the closest key *)

(** The selected key, in the order of the loop's own comparison. *)
Lemma closest_loop_first_min (v : Version) (keys : list string)
    (cv cd : Version) :
  closest_loop v keys (None, None) = Ok (Some cv, Some cd) ->
  exists i key,
    nth_error keys i = Some key
    /\ parse key = Ok cv
    /\ cd = distance v cv
    /\ (forall j kj vj, nth_error keys j = Some kj -> parse kj = Ok vj ->
                        le cd (distance v vj))
    /\ (forall j kj vj, (j < i)%nat -> nth_error keys j = Some kj ->
                        parse kj = Ok vj -> lt cd (distance v vj)).
Proof.
  destruct keys as [|key rest]; [discriminate|]. simpl.
  destruct (parse key) as [kv|e] eqn:Ek; [|discriminate]. simpl. intros H.
  destruct (closest_loop_from _ _ _ _ _ _ H) as (Hle & Hall & Hcase).
  destruct Hcase as [[-> ->]|(i & k & Hi & Hp & Hd & Hlt & Hbefore)].
  - exists 0%nat, key. repeat split; auto.
    + intros [|j] kj vj Hj Hpj; simpl in Hj.
      * injection Hj as <-. rewrite Ek in Hpj. injection Hpj as <-.
        apply le_refl.
      * eapply Hall; eassumption.
    + intros j kj vj Hj. lia.
  - exists (S i), k. repeat split; auto.
    + intros [|j] kj vj Hj Hpj; simpl in Hj.
      * injection Hj as <-. rewrite Ek in Hpj. injection Hpj as <-.
        exact Hle.
      * eapply Hall; eassumption.
    + intros [|j] kj vj Hj Hn Hpj; simpl in Hn.
      * injection Hn as <-. rewrite Ek in Hpj. injection Hpj as <-.
        exact Hlt.
      * eapply Hbefore; [|eassumption|eassumption]. lia.
Qed.

(** C5.  The key that the loop of [pyver_to_mayaver] selects is a key of the
    map at the least distance from the input in the lexicographic order, in
    which a difference in the major component dominates one in the minor,
    which dominates one in the patch: the distance of no key is below the
    selected one in that order, and the distance of every key before the
    selected one in the map is above it.  Among the keys at the least
    distance the first inserted one is selected. *)
Theorem C5_closest_key_is_first_minimum (v : Version) (keys : list string)
    (cv cd : Version) :
  closest_loop v keys (None, None) = Ok (Some cv, Some cd) ->
  exists i key,
    nth_error keys i = Some key
    /\ parse key = Ok cv
    /\ cd = distance v cv
    /\ (forall j kj vj, nth_error keys j = Some kj -> parse kj = Ok vj ->
                        ~ lex_lt (distance v vj) cd)
    /\ (forall j kj vj, (j < i)%nat -> nth_error keys j = Some kj ->
                        parse kj = Ok vj -> lex_lt cd (distance v vj)).
Proof.
  intros H.
  destruct (closest_loop_first_min v keys cv cd H)
    as (i & key & Hi & Hp & Hd & Hall & Hbefore).
  exists i, key. repeat split; try assumption.
  - intros j kj vj Hj Hpj Hlex.
    specialize (Hall j kj vj Hj Hpj). apply le_iff in Hall. apply Hall.
    apply lt_iff. exact Hlex.
  - intros j kj vj Hlt Hj Hpj. apply lt_iff. eapply Hbefore; eassumption.
Qed.

(** The keys of the witness: the first is nearest in minor and patch but
    not in major, the second is nearer in major only, the third beats it in
    minor with a greater patch, the fourth beats that one in patch, and the
    fifth ties with the fourth. *)
Lemma C5_witness :
  closest_loop (mkVersion 3 5 5)
    ["4.5.5"; "3.7.0"; "3.6.12"; "3.6.7"; "3.4.3"] (None, None)
  = Ok (Some (mkVersion 3 6 7), Some (mkVersion 0 1 2))
  /\ exists i key,
      nth_error ["4.5.5"; "3.7.0"; "3.6.12"; "3.6.7"; "3.4.3"] i = Some key
      /\ parse key = Ok (mkVersion 3 6 7)
      /\ mkVersion 0 1 2 = distance (mkVersion 3 5 5) (mkVersion 3 6 7)
      /\ (forall j kj vj,
            nth_error ["4.5.5"; "3.7.0"; "3.6.12"; "3.6.7"; "3.4.3"] j
            = Some kj ->
            parse kj = Ok vj ->
            ~ lex_lt (distance (mkVersion 3 5 5) vj) (mkVersion 0 1 2))
      /\ (forall j kj vj, (j < i)%nat ->
            nth_error ["4.5.5"; "3.7.0"; "3.6.12"; "3.6.7"; "3.4.3"] j
            = Some kj ->
            parse kj = Ok vj ->
            lex_lt (mkVersion 0 1 2) (distance (mkVersion 3 5 5) vj)).
Proof.
  split; [reflexivity|].
  apply (C5_closest_key_is_first_minimum (mkVersion 3 5 5)
           ["4.5.5"; "3.7.0"; "3.6.12"; "3.6.7"; "3.4.3"]
           (mkVersion 3 6 7) (mkVersion 0 1 2)).
  reflexivity.
Defined.

(** ** C6: the first loop stops at the first release *)

Lemma probe_events_shebang (env : Env) :
  probe_events env py_version_from_shebang = [Call py_version_from_shebang_fn].
Proof. reflexivity. Qed.

Lemma probe_events_virtualenv (env : Env) :
  probe_events env py_version_from_virtualenv
  = [Call py_version_from_virtualenv_fn]
  \/ probe_events env py_version_from_virtualenv
     = [Call py_version_from_virtualenv_fn; Call installed_maya_versions_fn].
Proof.
  unfold probe_events, trace, result.
  rewrite py_version_from_virtualenv_run. simpl.
  destruct (environ_VIRTUAL_ENV env); [|now left].
  destruct (parse _) as [v|e]; [|now left].
  destruct (pyver_to_mayaver_trace py_to_maya_map v env) as [H|H];
    unfold trace, pyver_to_mayaver in *; rewrite H; auto.
Qed.

Lemma probe_events_python_version (env : Env) :
  probe_events env py_version_from_python_version
  = [Call py_version_from_python_version_fn]
  \/ probe_events env py_version_from_python_version
     = [Call py_version_from_python_version_fn;
        Call installed_maya_versions_fn].
Proof.
  unfold probe_events, trace, result.
  rewrite py_version_from_python_version_run. simpl.
  destruct (first_pin _ _ _ _) as [[v|]|e]; [|now left|now left].
  destruct (pyver_to_mayaver_trace py_to_maya_map v env) as [H|H];
    unfold trace, pyver_to_mayaver in *; rewrite H; auto.
Qed.

(** C6.  Let a probe of the first loop of [resolve_version] return a version
    that [pyver_to_mayaver] resolves to a release, every probe before it
    having led to no release.  Then [resolve_version] returns that release,
    and its log is the log of the probes up to that one: no later probe of
    the first loop and no probe of the second loop is called. *)
Theorem C6_first_resolving_probe_wins (env : Env)
    (pre post : list (M (option Version))) (p : M (option Version))
    (v : Version) (r : Z) :
  py_version_resolvers = pre ++ p :: post ->
  Forall (no_match env) pre ->
  result p env = Ok (Some v) ->
  result (pyver_to_mayaver v) env = Ok (Some r) ->
  resolve_version env
  = (flat_map (probe_events env) pre ++ probe_events env p, Ok (Some r))
  /\ (forall f, In (Call f) (trace resolve_version env) ->
        f = installed_maya_versions_fn
        \/ In f (firstn (S (List.length pre)) py_version_resolver_names))
  /\ (forall args, ~ In (Run args) (trace resolve_version env)).
Proof.
  intros E Hpre Hp Hr.
  assert (Hrun : resolve_version env
                 = (flat_map (probe_events env) pre ++ probe_events env p,
                    Ok (Some r))).
  { rewrite resolve_version_run, E, (run_py_prefix env pre _ Hpre).
    unfold trace, result. now rewrite (run_py_hit env p post v r Hp Hr). }
  split; [exact Hrun|]. unfold trace. rewrite Hrun. cbn [fst].
  destruct (py_version_resolvers_split env pre post p v E Hp)
    as [[-> ->]|[-> ->]]; cbn [flat_map List.length firstn
                                 py_version_resolver_names];
    rewrite ?probe_events_shebang.
  - destruct (probe_events_virtualenv env) as [-> | ->]; split;
      simpl; intros x Hx;
      repeat (destruct Hx as [Hx|Hx];
              [try discriminate Hx; injection Hx as <-; auto 10|]);
      try contradiction.
  - destruct (probe_events_virtualenv env) as [-> | ->];
      destruct (probe_events_python_version env) as [-> | ->]; split;
      simpl; intros x Hx;
      repeat (destruct Hx as [Hx|Hx];
              [try discriminate Hx; injection Hx as <-; auto 10|]);
      try contradiction.
Qed.

Lemma C6_witness :
  py_version_resolvers
  = [py_version_from_shebang] ++ py_version_from_virtualenv
      :: [py_version_from_python_version]
  /\ resolve_version Sample.venv_397
     = ([Call py_version_from_shebang_fn; Call py_version_from_virtualenv_fn;
         Call installed_maya_versions_fn], Ok (Some 2023)).
Proof.
  split; [reflexivity|].
  apply (C6_first_resolving_probe_wins Sample.venv_397
           [py_version_from_shebang] [py_version_from_python_version]
           py_version_from_virtualenv (mkVersion 3 9 7) 2023).
  - reflexivity.
  - repeat constructor.
  - reflexivity.
  - reflexivity.
Defined.

(** ** C7: nothing to go by and nothing installed *)

Lemma first_pin_no_RuntimeError {A} (fname : string) (read : dirent -> res A)
    (env : Env) (dirs : list PurePath) :
  (forall child, read child <> Raise RuntimeError) ->
  first_pin fname read env dirs <> Raise RuntimeError.
Proof.
  intros Hread. induction dirs as [|d dirs IH]; simpl; [discriminate|].
  destruct (find_file fname (iterdir env d)) as [child|]; [|exact IH].
  specialize (Hread child). destruct (read child) as [a|e]; simpl.
  - discriminate.
  - congruence.
Qed.

Lemma read_python_version_no_RuntimeError (child : dirent) :
  read_python_version child <> Raise RuntimeError.
Proof.
  unfold read_python_version.
  destruct (or_nil _) as [|l ls]; simpl; [discriminate|].
  apply parse_no_RuntimeError.
Qed.

Lemma read_maya_version_no_RuntimeError (child : dirent) :
  read_maya_version child <> Raise RuntimeError.
Proof.
  unfold read_maya_version.
  destruct (Py.splitlines _) as [|l ls]; simpl; [discriminate|].
  destruct (Py.int l); discriminate.
Qed.

Lemma closest_loop_no_RuntimeError (v : Version) (keys : list string) :
  forall c, closest_loop v keys c <> Raise RuntimeError.
Proof.
  induction keys as [|k keys IH]; intros c; simpl; [discriminate|].
  pose proof (parse_no_RuntimeError k) as Hk.
  destruct (parse k) as [kv|e]; simpl; [|congruence].
  destruct c as [[cv0|] [cd0|]]; try apply IH.
  destruct (ltb _ _); apply IH.
Qed.

Lemma pyver_to_mayaver_no_RuntimeError (table : list (string * Z))
    (v : Version) (env : Env) :
  result (pyver_to_mayaver_in table v) env <> Raise RuntimeError.
Proof.
  unfold result. rewrite pyver_to_mayaver_in_run.
  pose proof (closest_loop_no_RuntimeError v (dict_keys table) (None, None)).
  destruct (closest_loop _ _ _) as [[[cv|] cd]|e]; simpl;
    try discriminate; try congruence.
  destruct (_ && _); [|discriminate]. rewrite ensure_installed_run.
  destruct (registry_maya_subkeys env); discriminate.
Qed.

Lemma run_py_no_RuntimeError (env : Env) (ps : list (M (option Version))) :
  Forall (fun p => result p env <> Raise RuntimeError) ps ->
  result (run_py_version_resolvers ps) env <> Raise RuntimeError.
Proof.
  induction 1 as [|p ps Hp _ IH]; [discriminate|].
  unfold result in *. simpl. unfold bind.
  destruct (p env) as [t [[v|]|e]]; simpl in *.
  - pose proof (pyver_to_mayaver_no_RuntimeError py_to_maya_map v env) as Hv.
    unfold result, pyver_to_mayaver in *.
    destruct (pyver_to_mayaver_in py_to_maya_map v env) as [t' [[r|]|e]];
      simpl in *; try discriminate; try congruence.
    destruct (run_py_version_resolvers ps env). exact IH.
  - destruct (run_py_version_resolvers ps env). exact IH.
  - congruence.
Qed.

Lemma py_version_resolvers_no_RuntimeError (env : Env) :
  Forall (fun p => result p env <> Raise RuntimeError) py_version_resolvers.
Proof.
  unfold py_version_resolvers, result. repeat constructor.
  - discriminate.
  - rewrite py_version_from_virtualenv_run. simpl.
    destruct (environ_VIRTUAL_ENV env); [|discriminate].
    pose proof (parse_no_RuntimeError (python_version_of_platform env)).
    destruct (parse _); [discriminate | congruence].
  - rewrite py_version_from_python_version_run. simpl.
    apply first_pin_no_RuntimeError, read_python_version_no_RuntimeError.
Qed.

Lemma py_max_cases (l : list Z) :
  (l = [] /\ py_max l = Raise ValueError) \/ exists n, py_max l = Ok n.
Proof. destruct l; simpl; eauto. Qed.

(** [resolve_version] returns a release or raises; what it raises is never
    [RuntimeError]. *)
Lemma resolve_version_result (env : Env) :
  (exists r, result resolve_version env = Ok (Some r))
  \/ (exists e, result resolve_version env = Raise e /\ e <> RuntimeError).
Proof.
  unfold result at 1 2. rewrite resolve_version_run.
  pose proof (run_py_no_RuntimeError env _
                (py_version_resolvers_no_RuntimeError env)) as HA.
  unfold result in HA.
  destruct (run_py_version_resolvers py_version_resolvers env)
    as [t [[r|]|e]]; cbn [snd] in *;
    [eauto | | right; exists e; split; [reflexivity | congruence]].
  unfold result. rewrite run_maya_run. unfold result.
  rewrite maya_version_from_maya_version_run. cbn [snd].
  pose proof (first_pin_no_RuntimeError ".maya-version" read_maya_version env
                (parent_dirs_from (resolve env "."))
                read_maya_version_no_RuntimeError) as HB.
  destruct (first_pin _ _ _ _) as [[n|]|e]; cbn [snd];
    [eauto | | right; exists e; split; [reflexivity | congruence]].
  rewrite latest_maya_version_run. cbn [snd].
  destruct (registry_maya_subkeys env) as [ks|].
  - destruct (py_max_cases (enum_versions ks)) as [[_ ->]|[n ->]].
    + right. eexists. split; [reflexivity | discriminate].
    + eauto.
  - right. eexists. split; [reflexivity | discriminate].
Qed.

Lemma start_mayapy_run (version : Z) (args : list string) (env : Env) :
  exists exe,
    result (mayapy version) env = Ok exe
    /\ exe = option_map mayapy_exe (maya_install_path env version)
    /\ start_mayapy version args env
       = ([Run (str_of_path_option exe :: args)],
          checked env (str_of_path_option exe :: args)).
Proof.
  unfold start_mayapy, subprocess_run_check, mayapy, checked, result, bind,
    ask, log, ret, raise. simpl.
  destruct (maya_install_path env version) as [dir|]; simpl;
    [exists (Some (mayapy_exe dir)) | exists None];
    (split; [reflexivity|]); (split; [reflexivity|]);
    unfold mayapy_exe, str_of_path_option;
    match goal with |- context [child_returncode env ?c =? 0] =>
      destruct (child_returncode env c =? 0) end; reflexivity.
Qed.

(** [main], from the outcome of [resolve_version]. *)
Lemma main_run (args : list string) (env : Env) :
  main args env
  = match resolve_version env with
    | (t, Raise e) => (t, Raise e)
    | (t, Ok version) =>
        let '(version, args) :=
          match args with
          | a :: rest =>
              match Py.int a with
              | Some n => (Some (Z.abs n), rest)
              | None => (version, args)
              end
          | [] => (version, args)
          end in
        match version with
        | None => (t, Raise RuntimeError)
        | Some version =>
            (t ++ trace (start_mayapy version args) env,
             result (start_mayapy version args) env)
        end
    end.
Proof.
  unfold main. unfold bind at 1.
  destruct (resolve_version env) as [t [version|e]]; [|reflexivity].
  destruct args as [|a rest]; [|destruct (Py.int a)];
    try (destruct version as [ver|]); cbv beta iota;
    try (unfold raise; now rewrite app_nil_r);
    unfold trace, result;
    match goal with |- context [start_mayapy ?x ?y env] =>
      now destruct (start_mayapy x y env) end.
Qed.

(** When the first loop finds no release, there is no [.maya-version] file
    and no release is installed, [main] ends in the [ValueError] of
    [max([])], whatever its arguments. *)
Lemma no_release_raises_ValueError (env : Env) (subkeys : list string)
    (args : list string) :
  Forall (no_match env) py_version_resolvers ->
  result maya_version_from_maya_version env = Ok None ->
  registry_maya_subkeys env = Some subkeys ->
  enum_versions subkeys = [] ->
  result (main args) env = Raise ValueError.
Proof.
  intros HA HB Hreg Hnone. unfold result at 1.
  rewrite main_run, resolve_version_run, (run_py_all env _ HA).
  unfold result at 1. rewrite run_maya_run, HB.
  unfold result. rewrite latest_maya_version_run, Hreg, Hnone. reflexivity.
Qed.

(** C7.  The claim is that with no probe answering and no release installed,
    resolution ends in the error reserved for exhaustion, which [main]
    raises as [RuntimeError] when [resolve_version] returns [None].  In the
    code [latest_maya_version] calls [max] on the empty list: with nothing to
    go by and no release installed [main] ends in [ValueError], or in
    [OSError] on a machine without the registry key of Maya;
    [resolve_version] never returns [None], and [main] never raises
    [RuntimeError]: it returns, or raises one of the exceptions of the
    probes or the [CalledProcessError] of the child process. *)
Theorem C7_exhaustion_raises_ValueError :
  main [] Sample.exhausted
  = ([Call py_version_from_shebang_fn; Call py_version_from_virtualenv_fn;
      Call py_version_from_python_version_fn;
      Call maya_version_from_maya_version_fn;
      Call latest_maya_version_fn; Call installed_maya_versions_fn],
     Raise ValueError)
  /\ (forall args, result (main args) Sample.exhausted = Raise ValueError)
  /\ (forall args, result (main args) Sample.no_registry = Raise OSError)
  /\ (forall env,
        (exists r, result resolve_version env = Ok (Some r))
        \/ (exists e, result resolve_version env = Raise e))
  /\ (forall args env,
        result (main args) env = Ok tt
        \/ (exists e, result (main args) env = Raise e
                      /\ In e [ValueError; TypeError; IndexError; OSError;
                               CalledProcessError])).
Proof.
  split; [reflexivity|]. split; [|split; [|split]].
  - intros args.
    apply (no_release_raises_ValueError Sample.exhausted [] args);
      try reflexivity.
    repeat constructor.
  - intros args. unfold result. rewrite main_run. reflexivity.
  - intros env. destruct (resolve_version_result env) as [H|[e [H _]]]; eauto.
  - intros args env. unfold result at 1 2. rewrite main_run.
    destruct (resolve_version_result env) as [[r H]|[e [H He]]];
      unfold result in H; destruct (resolve_version env) as [t rv];
      simpl in H; subst rv.
    + destruct args as [|a rest]; [|destruct (Py.int a)]; cbv beta iota;
        unfold trace, result;
        match goal with |- context [start_mayapy ?x ?y env] =>
          destruct (start_mayapy_run x y env) as (exe & _ & _ & ->) end;
        cbn [snd]; unfold checked;
        match goal with |- context [child_returncode env ?c =? 0] =>
          destruct (child_returncode env c =? 0) end;
        solve [ now left
              | right; exists CalledProcessError; simpl; auto 10 ].
    + right. exists e. split; [reflexivity|].
      destruct e; simpl; auto 10; now destruct He.
Qed.

(** ** C8: malformed pin files *)

Lemma first_pin_found {A} (fname : string) (read : dirent -> res A)
    (env : Env) (dirs : list PurePath) :
  first_pin fname read env dirs
  = match first_pin fname (fun child => Ok child) env dirs with
    | Ok (Some child) => (let! a := read child in Ok (Some a))%res
    | Ok None => Ok None
    | Raise e => Raise e
    end.
Proof.
  induction dirs as [|d dirs IH]; simpl; [reflexivity|].
  now destruct (find_file fname (iterdir env d)).
Qed.

Lemma find_pin_read {A} (fname : string) (read : dirent -> res A)
    (env : Env) (child : dirent) :
  find_pin fname env = Some child ->
  first_pin fname read env (parent_dirs_from (resolve env "."))
  = (let! a := read child in Ok (Some a))%res.
Proof.
  unfold find_pin. intros H. rewrite first_pin_found.
  destruct (first_pin fname _ env _) as [[c|]|e]; try discriminate.
  now injection H as ->.
Qed.

Lemma bad_python_pin_raises (env : Env) (child : dirent) (line : string)
    (more : list string) :
  find_pin ".python-version" env = Some child ->
  Py.splitlines (read_text child) = line :: more ->
  regex_match line = None ->
  result py_version_from_python_version env = Raise ValueError.
Proof.
  intros Hfind Hlines Hline. unfold result.
  rewrite py_version_from_python_version_run. cbn [snd].
  rewrite (find_pin_read _ _ _ _ Hfind).
  unfold read_python_version. rewrite Hlines. simpl.
  unfold parse. now rewrite Hline.
Qed.

Lemma bad_maya_pin_raises (env : Env) (child : dirent) (line : string)
    (more : list string) :
  find_pin ".maya-version" env = Some child ->
  Py.splitlines (read_text child) = line :: more ->
  Py.int line = None ->
  result maya_version_from_maya_version env = Raise ValueError.
Proof.
  intros Hfind Hlines Hline. unfold result.
  rewrite maya_version_from_maya_version_run. cbn [snd].
  rewrite (find_pin_read _ _ _ _ Hfind).
  unfold read_maya_version. rewrite Hlines. simpl. now rewrite Hline.
Qed.

(** C8, the claim at a sample environment.  The [.python-version] file met
    first holds the line [abc], which no version pattern matches.  The claim
    makes the probe return no answer and resolution go on with the
    [.maya-version] file, which pins 2023; in the code the probe raises and
    [resolve_version] ends in [ValueError] without calling a further
    probe. *)
Lemma C8_counterexample :
  find_pin ".python-version" Sample.bad_python_pin
  = Some (mkDirent ".python-version" true "abc")
  /\ Py.splitlines "abc" = ["abc"]
  /\ regex_match "abc" = None
  /\ result (run_maya_version_resolvers maya_version_resolvers)
       Sample.bad_python_pin = Ok (Some 2023)
  /\ result py_version_from_python_version Sample.bad_python_pin
     = Raise ValueError
  /\ resolve_version Sample.bad_python_pin
     = ([Call py_version_from_shebang_fn; Call py_version_from_virtualenv_fn;
         Call py_version_from_python_version_fn], Raise ValueError).
Proof. repeat split; reflexivity. Qed.

(** C8, amended.  A pin file whose first line is malformed makes its probe
    raise, and the exception leaves [resolve_version]: when the earlier
    probes led to no release, a [.python-version] file whose first line does
    not match the version pattern, and a [.maya-version] file whose first line
    is no integer, end [resolve_version] in [ValueError], the probe of the
    file being the last call logged. *)
Theorem C8_malformed_pin_propagates (env : Env) (child : dirent)
    (line : string) (more : list string) :
  Py.splitlines (read_text child) = line :: more ->
  (find_pin ".python-version" env = Some child ->
   regex_match line = None ->
   no_match env py_version_from_virtualenv ->
   resolve_version env
   = ([Call py_version_from_shebang_fn]
      ++ probe_events env py_version_from_virtualenv
      ++ [Call py_version_from_python_version_fn], Raise ValueError))
  /\ (find_pin ".maya-version" env = Some child ->
      Py.int line = None ->
      Forall (no_match env) py_version_resolvers ->
      resolve_version env
      = (flat_map (probe_events env) py_version_resolvers
         ++ [Call maya_version_from_maya_version_fn], Raise ValueError)).
Proof.
  intros Hlines. split.
  - intros Hfind Hline Hvenv.
    pose proof (bad_python_pin_raises env child line more Hfind Hlines Hline)
      as Hraise.
    assert (Hrun : run_py_version_resolvers py_version_resolvers env
                   = ([Call py_version_from_shebang_fn]
                      ++ probe_events env py_version_from_virtualenv
                      ++ [Call py_version_from_python_version_fn],
                      Raise ValueError)).
    { change py_version_resolvers
        with ([py_version_from_shebang; py_version_from_virtualenv]
              ++ [py_version_from_python_version]).
      rewrite run_py_prefix.
      - unfold trace, result. rewrite (run_py_raise _ _ _ _ Hraise).
        cbn [fst snd flat_map]. rewrite probe_events_shebang.
        rewrite app_nil_r, <- app_assoc. reflexivity.
      - constructor; [now left|]. constructor; [assumption | constructor]. }
    now rewrite resolve_version_run, Hrun.
  - intros Hfind Hline HA.
    pose proof (bad_maya_pin_raises env child line more Hfind Hlines Hline)
      as Hraise.
    rewrite resolve_version_run, (run_py_all env _ HA).
    unfold trace, result. rewrite run_maya_run, Hraise. reflexivity.
Qed.

Lemma C8_witness :
  resolve_version Sample.bad_python_pin
  = ([Call py_version_from_shebang_fn; Call py_version_from_virtualenv_fn;
      Call py_version_from_python_version_fn], Raise ValueError)
  /\ resolve_version Sample.bad_maya_pin
     = ([Call py_version_from_shebang_fn; Call py_version_from_virtualenv_fn;
         Call py_version_from_python_version_fn;
         Call maya_version_from_maya_version_fn], Raise ValueError).
Proof.
  split.
  - apply (C8_malformed_pin_propagates Sample.bad_python_pin
             (mkDirent ".python-version" true "abc") "abc" []).
    + reflexivity.
    + reflexivity.
    + reflexivity.
    + left. reflexivity.
  - apply (C8_malformed_pin_propagates Sample.bad_maya_pin
             (mkDirent ".maya-version" true "latest") "latest" []).
    + reflexivity.
    + reflexivity.
    + reflexivity.
    + repeat constructor.
Defined.

(** ** C9: the override on the command line *)

(** C9, the claim at a sample environment.  The first argument is the
    integer 2023, and Maya 2023 is installed; the [.python-version] file met
    first is malformed.  The claim makes [main] start Maya 2023 whatever the
    environment; in the code [main] calls [resolve_version] before it looks
    at its arguments, and ends in [ValueError] with nothing started. *)
Lemma C9_counterexample :
  Py.int "2023" = Some 2023
  /\ result installed_maya_versions Sample.bad_python_pin = Ok [2023]
  /\ main ["2023"; "script.py"] Sample.bad_python_pin
     = ([Call py_version_from_shebang_fn; Call py_version_from_virtualenv_fn;
         Call py_version_from_python_version_fn], Raise ValueError).
Proof. repeat split; reflexivity. Qed.

(** C9, amended.  [main] first calls [resolve_version].  If that call
    returns, the first argument reads as an integer [n] and release [abs n]
    has an install path, then [main] runs the interpreter of release
    [abs n], whatever [resolve_version] returned, with the remaining
    arguments unchanged after the path of the interpreter; it returns when
    the child process exits with status 0 and raises [CalledProcessError]
    otherwise.  If [resolve_version] raises, [main] raises the same exception
    and runs nothing. *)
Theorem C9_override_after_resolution (env : Env) (a : string)
    (rest : list string) (n : Z) (maya_install_dir : PurePath) :
  Py.int a = Some n ->
  maya_install_path env (Z.abs n) = Some maya_install_dir ->
  (forall t version, resolve_version env = (t, Ok version) ->
     main (a :: rest) env
     = (t ++ [Run (path_str (mayapy_exe maya_install_dir) :: rest)],
        checked env (path_str (mayapy_exe maya_install_dir) :: rest)))
  /\ (forall t e, resolve_version env = (t, Raise e) ->
        main (a :: rest) env = (t, Raise e)).
Proof.
  intros Ha Hdir. split.
  - intros t version H.
    destruct (start_mayapy_run (Z.abs n) rest env) as (exe & _ & Hexe & Hstart).
    rewrite Hdir in Hexe. simpl in Hexe. subst exe.
    rewrite main_run, H, Ha. unfold trace, result. now rewrite Hstart.
  - intros t e H. now rewrite main_run, H.
Qed.

Lemma C9_witness :
  Py.int "-2022" = Some (-2022)
  /\ maya_install_path Sample.venv_397 (Z.abs (-2022))
     = Some (mkPath "C:\" ["Autodesk"; "Maya2022"])
  /\ main ["-2022"; "script.py"] Sample.venv_397
     = ([Call py_version_from_shebang_fn; Call py_version_from_virtualenv_fn;
         Call installed_maya_versions_fn;
         Run ["C:\Autodesk\Maya2022\bin\mayapy.exe"; "script.py"]], Ok tt).
Proof.
  split; [reflexivity|]. split; [reflexivity|].
  apply (proj1 (C9_override_after_resolution Sample.venv_397 "-2022"
                  ["script.py"] (-2022)
                  (mkPath "C:\" ["Autodesk"; "Maya2022"])
                  eq_refl eq_refl)
           [Call py_version_from_shebang_fn;
            Call py_version_from_virtualenv_fn;
            Call installed_maya_versions_fn] (Some 2023) eq_refl).
Defined.

(** ** C10: the release pinned by a [.maya-version] file *)

(** C10.  When every probe of the first loop led to no release and the
    [.maya-version] probe returns [n], [resolve_version] returns [n]; after
    the first loop the only call logged is that probe, so the installed
    releases are not queried for [n], and they are not queried at all when no
    probe of the first loop found a version. *)
Theorem C10_maya_pin_not_checked (env : Env) (n : Z) :
  Forall (no_match env) py_version_resolvers ->
  result maya_version_from_maya_version env = Ok (Some n) ->
  resolve_version env
  = (flat_map (probe_events env) py_version_resolvers
     ++ [Call maya_version_from_maya_version_fn], Ok (Some n))
  /\ (Forall (fun p => result p env = Ok None) py_version_resolvers ->
      ~ In (Call installed_maya_versions_fn) (trace resolve_version env)).
Proof.
  intros HA HB.
  assert (Hrun : resolve_version env
                 = (flat_map (probe_events env) py_version_resolvers
                    ++ [Call maya_version_from_maya_version_fn],
                    Ok (Some n))).
  { rewrite resolve_version_run, (run_py_all env _ HA).
    unfold trace, result. now rewrite run_maya_run, HB. }
  split; [exact Hrun|]. intros Hnone. unfold trace. rewrite Hrun. cbn [fst].
  unfold py_version_resolvers in *.
  inversion Hnone as [|? ? H1 Hnone1]; subst.
  inversion Hnone1 as [|? ? H2 Hnone2]; subst.
  inversion Hnone2 as [|? ? H3 _]; subst.
  unfold probe_events. cbn [flat_map]. rewrite H1, H2, H3.
  unfold trace. rewrite py_version_from_virtualenv_run,
    py_version_from_python_version_run. simpl.
  intros [H|[H|[H|[H|[]]]]]; discriminate H.
Qed.

Lemma C10_witness :
  result installed_maya_versions Sample.maya_pin_2019 = Ok [2023]
  /\ resolve_version Sample.maya_pin_2019
     = ([Call py_version_from_shebang_fn; Call py_version_from_virtualenv_fn;
         Call py_version_from_python_version_fn;
         Call maya_version_from_maya_version_fn], Ok (Some 2019)).
Proof.
  split; [reflexivity|].
  apply (C10_maya_pin_not_checked Sample.maya_pin_2019 2019).
  - repeat constructor.
  - reflexivity.
Defined.

(** * Further properties *)

Import PyFacts.

(** ** [Version]: parsing and printing *)

Lemma of_digits_nonneg (ds : string) (z : Z) :
  Py.of_digits ds = Some z -> 0 <= z.
Proof.
  unfold Py.of_digits. destruct (NilEmpty.uint_of_string ds) as [d|];
    [|discriminate].
  intros [= <-]. unfold Z.of_uint. apply N2Z.is_nonneg.
Qed.

Lemma int_all_digits_nonneg (ds : string) (z : Z) :
  Py.all_digits ds = true -> ds <> EmptyString -> Py.int ds = Some z ->
  0 <= z.
Proof.
  intros Hall Hne. destruct ds as [|c r]; [now destruct Hne|].
  pose proof Hall as Hall'. simpl in Hall'.
  apply andb_prop in Hall' as [Hc _].
  unfold Py.int, Py.strip.
  rewrite (lstrip_digits c r Hc), (rstrip_digits _ Hall).
  rewrite (split_sign_digit c r Hc).
  rewrite (int_body_digits _ false Hall) by discriminate.
  destruct (Py.of_digits (String c r)) as [n|] eqn:E; [|discriminate].
  intros [= <-]. apply of_digits_nonneg in E. destruct n; simpl; lia.
Qed.

(** The integers read from the groups of a match are natural numbers. *)
Lemma regex_groups_nonneg (s : string) (g : groups) :
  regex_match s = Some g ->
  (forall z, Py.int (g_major g) = Some z -> 0 <= z)
  /\ (forall mi z, g_minor g = Some mi -> Py.int mi = Some z -> 0 <= z)
  /\ (forall pa z, g_patch g = Some pa -> Py.int pa = Some z -> 0 <= z).
Proof.
  unfold regex_match.
  destruct (match_digits s) as [[ma r1]|] eqn:E1; [|discriminate].
  assert (Hma : forall z, Py.int ma = Some z -> 0 <= z).
  { destruct (match_digits_all _ _ _ E1). intros z.
    now apply int_all_digits_nonneg. }
  assert (Hsep : forall r ds rest z, match_sep_digits r = Some (ds, rest) ->
                                     Py.int ds = Some z -> 0 <= z).
  { intros r ds rest z E. destruct (match_sep_digits_all _ _ _ E).
    now apply int_all_digits_nonneg. }
  unfold match_opt_group.
  destruct (match_sep_digits r1) as [[mi r2]|] eqn:E2.
  - destruct (match_sep_digits r2) as [[pa r3]|] eqn:E3; intros [= <-]; simpl.
    + split; [assumption|]. split; intros x z [= <-]; eauto.
    + split; [assumption|]. split; [intros x z [= <-]; eauto | discriminate].
  - rewrite E2. intros [= <-]. simpl.
    split; [assumption|]. split; discriminate.
Qed.

Lemma parse_nonneg (s : string) (v : Version) :
  parse s = Ok v -> 0 <= major v /\ 0 <= minor v /\ 0 <= patch v.
Proof.
  unfold parse. destruct (regex_match s) as [g|] eqn:E; [|discriminate].
  destruct (regex_groups_nonneg s g E) as (Hma & Hmi & Hpa).
  simpl. destruct (Py.int (g_major g)) as [zma|] eqn:Ema; [|discriminate].
  simpl. destruct (g_minor g) as [mi|]; [|discriminate]. simpl.
  destruct (Py.int mi) as [zmi|] eqn:Emi; [|discriminate]. simpl.
  destruct (g_patch g) as [pa|]; [|discriminate]. simpl.
  destruct (Py.int pa) as [zpa|] eqn:Epa; [|discriminate]. simpl.
  intros [= <-]. simpl. rewrite !or0_id.
  split; [now apply Hma|]. split; [eapply Hmi | eapply Hpa]; eauto.
Qed.

(** X1.  [parse(str(v)) == v] holds exactly for the versions whose three
    components are natural numbers; the string of any other version does not
    parse back to it. *)
Theorem X1_parse_str_round_trip (v : Version) :
  parse (to_str v) = Ok v
  <-> 0 <= major v /\ 0 <= minor v /\ 0 <= patch v.
Proof.
  split.
  - apply parse_nonneg.
  - intros (Hma & Hmi & Hpa). now apply to_str_nonneg.
Qed.

(** X2.  Whatever [parse] returns has natural components and is a fixed
    point of printing and parsing: [parse(str(parse(s))) == parse(s)]. *)
Theorem X2_parse_normalises (s : string) (v : Version) :
  parse s = Ok v ->
  0 <= major v /\ 0 <= minor v /\ 0 <= patch v /\ parse (to_str v) = Ok v.
Proof.
  intros H. destruct (parse_nonneg s v H) as (Hma & Hmi & Hpa).
  repeat split; try assumption. now apply to_str_nonneg.
Qed.

Lemma X2_witness :
  parse "03.010.7-beta" = Ok (mkVersion 3 10 7)
  /\ 0 <= 3 /\ 0 <= 10 /\ 0 <= 7
  /\ parse (to_str (mkVersion 3 10 7)) = Ok (mkVersion 3 10 7).
Proof.
  split; [reflexivity|].
  apply (X2_parse_normalises "03.010.7-beta" (mkVersion 3 10 7)).
  reflexivity.
Defined.

Lemma string_app_assoc (a b c : string) :
  ((a ++ b) ++ c)%string = (a ++ (b ++ c))%string.
Proof. induction a as [|x a IH]; simpl; [reflexivity | now rewrite IH]. Qed.

(** The string of a version of natural numbers, followed by text that does
    not begin with a digit. *)
Lemma parse_to_str_suffix (v : Version) (rest : string) :
  0 <= major v -> 0 <= minor v -> 0 <= patch v ->
  Py.no_digit_ahead rest = true ->
  parse (to_str v ++ rest) = Ok v.
Proof.
  intros Hma Hmi Hpa Hrest. destruct v as [ma mi pa]. simpl in *.
  destruct (str_nonneg ma Hma) as (dma & Nma & Sma & Vma).
  destruct (str_nonneg mi Hmi) as (dmi & Nmi & Smi & Vmi).
  destruct (str_nonneg pa Hpa) as (dpa & Npa & Spa & Vpa).
  unfold parse, to_str, regex_match. cbn [major minor patch].
  rewrite Sma, Smi, Spa.
  rewrite !string_app_assoc.
  repeat change ("." ++ ?x)%string with (String "." x).
  rewrite match_digits_uint by (assumption || reflexivity).
  rewrite match_opt_group_dot by (assumption || reflexivity).
  rewrite match_opt_group_dot by assumption.
  cbn [g_major g_minor g_patch int_of_group].
  rewrite !int_digits by assumption. simpl.
  rewrite !or0_id. now rewrite Vma, Vmi, Vpa.
Qed.

(** X3.  [parse] reads a version off the front of a string and ignores what
    follows the patch number: the string of a version of natural numbers,
    followed by any text that does not begin with a digit, parses to that
    version. *)
Theorem X3_parse_ignores_suffix (v : Version) (rest : string) :
  0 <= major v -> 0 <= minor v -> 0 <= patch v ->
  Py.no_digit_ahead rest = true ->
  parse (to_str v ++ rest) = Ok v.
Proof. apply parse_to_str_suffix. Qed.

Lemma X3_witness :
  0 <= 3 /\ 0 <= 10 /\ 0 <= 0 /\ Py.no_digit_ahead "rc1" = true
  /\ parse (to_str (mkVersion 3 10 0) ++ "rc1") = Ok (mkVersion 3 10 0).
Proof.
  split; [lia|]. split; [lia|]. split; [lia|]. split; [reflexivity|].
  apply (X3_parse_ignores_suffix (mkVersion 3 10 0) "rc1"); simpl;
    solve [lia | reflexivity].
Defined.

(** X4.  [parse] raises [ValueError] exactly for the strings that do not
    begin with a digit, and the only other exception it raises is
    [TypeError]. *)
Theorem X4_parse_exceptions (s : string) :
  (parse s = Raise ValueError <-> Py.no_digit_ahead s = true)
  /\ (forall e, parse s = Raise e -> e = ValueError \/ e = TypeError).
Proof.
  destruct (parse_cases s)
    as [[E H]|[(g & E & _ & H)|(g & mi & pa & v & E & _ & _ & H)]];
    rewrite H; split.
  - split; [intros _; now apply regex_match_iff | reflexivity].
  - intros e [= <-]. now left.
  - split; [discriminate|]. intros Hs. apply regex_match_iff in Hs. congruence.
  - intros e [= <-]. now right.
  - split; [discriminate|]. intros Hs. apply regex_match_iff in Hs. congruence.
  - discriminate.
Qed.

(** ** [Version]: distance and order *)

(** X5.  [distance] is symmetric, its components are never negative, and it
    is [Version(0, 0, 0)] exactly between equal versions. *)
Theorem X5_distance_metric (a b : Version) :
  distance a b = distance b a
  /\ 0 <= major (distance a b) /\ 0 <= minor (distance a b)
  /\ 0 <= patch (distance a b)
  /\ (distance a b = mkVersion 0 0 0 <-> a = b).
Proof.
  split; [apply distance_sym|]. unfold distance. simpl.
  repeat split; try apply Z.abs_nonneg.
  - intros [= H1 H2 H3]. destruct a, b. simpl in *. f_equal; lia.
  - intros ->. now rewrite !Z.sub_diag.
Qed.

(** X6.  The comparison generated for [Version] is a strict total order:
    no version is below itself, [<] is transitive, and of two versions one
    is below the other or they are equal. *)
Theorem X6_version_order_strict_total (a b c : Version) :
  ltb a a = false
  /\ (ltb a b = true -> ltb b c = true -> ltb a c = true)
  /\ (ltb a b = true \/ a = b \/ ltb b a = true)
  /\ (ltb a b = true -> ltb b a = false).
Proof.
  split; [apply le_refl|]. split; [|split].
  - intros H1 H2. eapply lt_le_trans; [exact H1 | now apply lt_le].
  - destruct a as [a1 a2 a3], b as [b1 b2 b3].
    destruct (Z.lt_trichotomy a1 b1) as [H1|[H1|H1]];
      [left; apply lt_iff; simpl; lia | | right; right; apply lt_iff; simpl; lia].
    destruct (Z.lt_trichotomy a2 b2) as [H2|[H2|H2]];
      [left; apply lt_iff; simpl; lia | | right; right; apply lt_iff; simpl; lia].
    destruct (Z.lt_trichotomy a3 b3) as [H3|[H3|H3]];
      [left; apply lt_iff; simpl; lia | | right; right; apply lt_iff; simpl; lia].
    right; left. congruence.
  - intros H. apply lt_le in H. exact H.
Qed.

(** ** The installed releases *)

Lemma enum_versions_In (subkeys : list string) (v : Z) :
  In v (enum_versions subkeys)
  <-> exists subkey, In subkey subkeys /\ Py.int subkey = Some v.
Proof.
  induction subkeys as [|k ks IH]; simpl.
  - split; [contradiction | intros (k & [] & _)].
  - destruct (Py.int k) as [z|] eqn:Ek; simpl; rewrite IH; split.
    + intros [<-|(k' & Hin & Hk')]; eauto.
    + intros (k' & [<-|Hin] & Hk'); [left; congruence | eauto].
    + intros (k' & Hin & Hk'). eauto.
    + intros (k' & [<-|Hin] & Hk'); [congruence | eauto].
Qed.

Lemma enum_versions_length (subkeys : list string) :
  (List.length (enum_versions subkeys) <= List.length subkeys)%nat.
Proof.
  induction subkeys as [|k ks IH]; simpl; [lia|].
  destruct (Py.int k); simpl; lia.
Qed.

(** X7.  [installed_maya_versions] raises [OSError] when the registry key of
    Maya is missing.  Otherwise it returns the integers that the subkeys
    read as, and nothing else: a subkey that is no integer is left out, and
    never makes the call fail. *)
Theorem X7_installed_versions_are_integer_subkeys (env : Env) :
  match registry_maya_subkeys env with
  | None => result installed_maya_versions env = Raise OSError
  | Some subkeys =>
      exists installed,
        result installed_maya_versions env = Ok installed
        /\ (forall v, In v installed
                      <-> exists subkey, In subkey subkeys
                                         /\ Py.int subkey = Some v)
        /\ (List.length installed <= List.length subkeys)%nat
  end.
Proof.
  unfold result. rewrite installed_maya_versions_run.
  destruct (registry_maya_subkeys env) as [ks|]; [|reflexivity].
  exists (enum_versions ks). split; [reflexivity|]. split.
  - intros v. apply enum_versions_In.
  - apply enum_versions_length.
Qed.

Lemma fold_left_max_spec (xs : list Z) :
  forall x,
    (fold_left Z.max xs x = x \/ In (fold_left Z.max xs x) xs)
    /\ x <= fold_left Z.max xs x
    /\ (forall y, In y xs -> y <= fold_left Z.max xs x).
Proof.
  induction xs as [|a xs IH]; intros x; simpl.
  - split; [now left|]. split; [lia | contradiction].
  - destruct (IH (Z.max x a)) as (Hin & Hle & Hall). split; [|split].
    + destruct Hin as [E|Hin]; [|now right; right].
      rewrite E. destruct (Z.max_spec x a) as [[_ ->]|[_ ->]]; auto.
    + lia.
    + intros y [<-|Hy]; [lia | now apply Hall].
Qed.

Lemma py_max_spec (l : list Z) (n : Z) :
  py_max l = Ok n -> In n l /\ forall m, In m l -> m <= n.
Proof.
  destruct l as [|x xs]; [discriminate|]. simpl. intros [= <-].
  destruct (fold_left_max_spec xs x) as (Hin & Hle & Hall). split.
  - destruct Hin as [-> | Hin]; auto.
  - intros m [<-|Hm]; [assumption | now apply Hall].
Qed.

(** X8.  When [latest_maya_version] returns, what it returns is an installed
    release and no installed release is greater. *)
Theorem X8_latest_is_greatest_installed (env : Env) (n : Z) :
  result latest_maya_version env = Ok n ->
  exists installed,
    result installed_maya_versions env = Ok installed
    /\ In n installed
    /\ forall m, In m installed -> m <= n.
Proof.
  unfold result. rewrite latest_maya_version_run, installed_maya_versions_run.
  destruct (registry_maya_subkeys env) as [ks|]; [|discriminate]. simpl.
  intros H. exists (enum_versions ks). split; [reflexivity|].
  now apply py_max_spec.
Qed.

Lemma X8_witness :
  result latest_maya_version
    (Sample.make None [] (Some ["2023"; "Common"; "2019"; "2022"])) = Ok 2023
  /\ exists installed,
      result installed_maya_versions
        (Sample.make None [] (Some ["2023"; "Common"; "2019"; "2022"]))
      = Ok installed
      /\ In 2023 installed
      /\ forall m, In m installed -> m <= 2023.
Proof.
  split; [reflexivity|].
  apply (X8_latest_is_greatest_installed
           (Sample.make None [] (Some ["2023"; "Common"; "2019"; "2022"]))
           2023).
  reflexivity.
Defined.

(** ** The resolver and the exact key *)

(** The closest version that the loop returns is the version of a key, or
    the one it started from. *)
Lemma closest_loop_shape (v : Version) (keys : list string) :
  forall c cv ocd,
    closest_loop v keys c = Ok (Some cv, ocd) ->
    fst c = Some cv \/ exists key, In key keys /\ parse key = Ok cv.
Proof.
  induction keys as [|k keys IH]; intros c cv ocd H; simpl in H.
  - injection H as ->. now left.
  - destruct (parse k) as [kv|e] eqn:Ek; [|discriminate]. simpl in H.
    assert (Hnew : closest_loop v keys (Some kv, Some (distance v kv))
                   = Ok (Some cv, ocd) ->
                   exists key, In key (k :: keys) /\ parse key = Ok cv).
    { intros H'. destruct (IH _ _ _ H') as [[= <-]|(key & Hin & Hp)].
      - exists k. split; [now left | assumption].
      - exists key. split; [now right | assumption]. }
    destruct c as [[cv0|] [cd0|]]; try (right; now apply Hnew).
    destruct (ltb (distance v kv) cd0); [right; now apply Hnew|].
    destruct (IH _ _ _ H) as [Hc|(key & Hin & Hp)]; [now left|].
    right. exists key. split; [now right | assumption].
Qed.

(** The distance that the loop returns is the least over the keys. *)
Lemma closest_loop_min (v : Version) (keys : list string) (cv cd : Version) :
  closest_loop v keys (None, None) = Ok (Some cv, Some cd) ->
  cd = distance v cv
  /\ forall key kv, In key keys -> parse key = Ok kv ->
                    le cd (distance v kv).
Proof.
  destruct keys as [|key rest]; [discriminate|]. simpl.
  destruct (parse key) as [kv|e] eqn:Ek; [|discriminate]. simpl. intros H.
  destruct (closest_loop_from _ _ _ _ _ _ H) as (Hle & Hall & Hcase).
  split.
  - destruct Hcase as [[-> ->]|(i & k & _ & _ & Hd & _)]; [reflexivity|].
    exact Hd.
  - intros k' kv' [<-|Hin] Hp.
    + rewrite Ek in Hp. injection Hp as <-. exact Hle.
    + apply In_nth_error in Hin as [j Hj]. eapply Hall; eassumption.
Qed.

Lemma gate_at_distance_zero (v cv : Version) :
  le (distance v cv) (distance v v) ->
  (major v =? major cv) && (minor v =? minor cv) = true.
Proof.
  rewrite distance_self. destruct v, cv. unfold le, ltb, distance. simpl.
  intros H. apply andb_true_iff. rewrite !Z.eqb_eq.
  apply orb_false_iff in H as [H1 H2]. apply Z.ltb_ge in H1.
  assert (E1 : major0 = major1) by lia. subst.
  rewrite Z.sub_diag in H2. simpl in H2.
  apply orb_false_iff in H2 as [H2 _]. apply Z.ltb_ge in H2.
  split; [reflexivity | lia].
Qed.

(** X9.  When the keys of the map parse and the string form of the detected
    version is a key, the gate always passes and [pyver_to_mayaver] does what
    [ensure_installed] does with the entry of that key: it queries the
    installed releases once and returns the entry if it is installed, no
    match if it is not, and raises [OSError] if the registry key of Maya is
    missing.  The distance to the other keys never changes the answer. *)
Theorem X9_exact_key_resolves_iff_installed (table : list (string * Z))
    (v : Version) (env : Env) (r : Z) :
  keys_parse table ->
  dict_get table (to_str v) = Some r ->
  pyver_to_mayaver_in table v env
  = ([Call installed_maya_versions_fn],
     match registry_maya_subkeys env with
     | Some subkeys =>
         Ok (if existsb (Z.eqb r) (enum_versions subkeys)
             then Some r else None)
     | None => Raise OSError
     end).
Proof.
  intros Hkeys Hget. rewrite pyver_to_mayaver_in_run.
  pose proof (dict_get_In _ _ _ Hget) as Hin.
  destruct (closest_loop_total v _ Hkeys (None, None)) as (c & E & Hne & _).
  destruct Hne as (cv & cd & ->).
  { intros Hnil. rewrite Hnil in Hin. contradiction. }
  rewrite E. destruct (closest_loop_min _ _ _ _ E) as (Hd & Hmin).
  unfold keys_parse in Hkeys. rewrite Forall_forall in Hkeys.
  destruct (Hkeys _ Hin) as [kv Ekv].
  pose proof (parse_to_str_inv _ _ Ekv) as ->.
  specialize (Hmin _ _ Hin Ekv). rewrite Hd in Hmin.
  rewrite (gate_at_distance_zero _ _ Hmin).
  now rewrite ensure_installed_run, Hget.
Qed.

Lemma X9_witness :
  keys_parse py_to_maya_map
  /\ dict_get py_to_maya_map (to_str (mkVersion 2 7 18)) = Some 2020
  /\ pyver_to_mayaver (mkVersion 2 7 18) Sample.venv_397
     = ([Call installed_maya_versions_fn], Ok None)
  /\ pyver_to_mayaver (mkVersion 3 9 7) Sample.no_registry
     = ([Call installed_maya_versions_fn], Raise OSError).
Proof.
  assert (Hkeys : keys_parse py_to_maya_map).
  { unfold keys_parse. simpl. repeat constructor; eexists; reflexivity. }
  split; [exact Hkeys|]. split; [reflexivity|]. split.
  - apply (X9_exact_key_resolves_iff_installed py_to_maya_map
             (mkVersion 2 7 18) Sample.venv_397 2020 Hkeys eq_refl).
  - apply (X9_exact_key_resolves_iff_installed py_to_maya_map
             (mkVersion 3 9 7) Sample.no_registry 2023 Hkeys eq_refl).
Defined.

(** X10.  When the keys of the map parse and none of them has both the major
    and the minor number of the detected version, [pyver_to_mayaver] returns
    no match, without a query of the installed releases. *)
Theorem X10_no_key_in_family_no_query (table : list (string * Z))
    (v : Version) (env : Env) :
  keys_parse table ->
  (forall key kv, In key (dict_keys table) -> parse key = Ok kv ->
                  (major v =? major kv) && (minor v =? minor kv) = false) ->
  pyver_to_mayaver_in table v env = ([], Ok None).
Proof.
  intros Hkeys Hfam. rewrite pyver_to_mayaver_in_run.
  destruct (closest_loop_total v _ Hkeys (None, None)) as (c & E & _).
  rewrite E. destruct c as [[cv|] ocd]; [|reflexivity].
  destruct (closest_loop_shape _ _ _ _ _ E) as [Hc|(key & Hin & Hp)];
    [discriminate Hc|].
  now rewrite (Hfam _ _ Hin Hp).
Qed.

Lemma X10_witness :
  keys_parse py_to_maya_map
  /\ pyver_to_mayaver (mkVersion 3 8 8) Sample.venv_397 = ([], Ok None).
Proof.
  assert (Hkeys : keys_parse py_to_maya_map).
  { unfold keys_parse. simpl. repeat constructor; eexists; reflexivity. }
  split; [exact Hkeys|].
  apply (X10_no_key_in_family_no_query py_to_maya_map (mkVersion 3 8 8)
           Sample.venv_397 Hkeys).
  intros key kv [<-|[<-|[<-|[<-|[]]]]] H; vm_compute in H;
    injection H as <-; reflexivity.
Defined.

(** ** The pin files *)

Lemma find_file_Some (fname : string) (children : list dirent)
    (child : dirent) :
  find_file fname children = Some child ->
  In child children /\ name child = fname /\ is_file child = true.
Proof.
  induction children as [|c cs IH]; simpl; [discriminate|].
  destruct (String.eqb_spec (name c) fname) as [E|E]; simpl.
  - destruct (is_file c) eqn:Ef.
    + intros [= <-]. auto.
    + intros H. destruct (IH H) as (Hin & Hn & Hf). auto.
  - intros H. destruct (IH H) as (Hin & Hn & Hf). auto.
Qed.

Lemma find_file_None (fname : string) (children : list dirent) :
  find_file fname children = None
  <-> forall c, In c children -> name c = fname -> is_file c = false.
Proof.
  induction children as [|c cs IH]; simpl.
  - split; [intros _ c [] | reflexivity].
  - destruct (String.eqb_spec (name c) fname) as [E|E]; simpl.
    + destruct (is_file c) eqn:Ef.
      * split; [discriminate|]. intros H. specialize (H c (or_introl eq_refl) E).
        congruence.
      * rewrite IH. split.
        -- intros H c' [<-|Hin] Hn; auto.
        -- intros H c' Hin. apply H. now right.
    + rewrite IH. split.
      * intros H c' [<-|Hin] Hn; [contradiction | auto].
      * intros H c' Hin. apply H. now right.
Qed.

Lemma first_pin_Some (fname : string) (env : Env) (dirs : list PurePath)
    (child : dirent) :
  first_pin fname (fun c => Ok c) env dirs = Ok (Some child) ->
  exists i d,
    nth_error dirs i = Some d
    /\ find_file fname (iterdir env d) = Some child
    /\ forall j d', (j < i)%nat -> nth_error dirs j = Some d' ->
                    find_file fname (iterdir env d') = None.
Proof.
  induction dirs as [|d dirs IH]; simpl; [discriminate|].
  destruct (find_file fname (iterdir env d)) as [c|] eqn:E.
  - simpl. intros [= <-]. exists 0%nat, d. repeat split; auto. intros j d' Hj. lia.
  - intros H. destruct (IH H) as (i & d0 & Hi & Hf & Hbefore).
    exists (S i), d0. repeat split; auto.
    intros [|j] d' Hj Hn; simpl in Hn.
    + now injection Hn as <-.
    + eapply Hbefore; [|eassumption]. lia.
Qed.

Lemma first_pin_None {A} (fname : string) (read : dirent -> res A)
    (env : Env) (dirs : list PurePath) :
  (forall d, In d dirs -> find_file fname (iterdir env d) = None) ->
  first_pin fname read env dirs = Ok None.
Proof.
  induction dirs as [|d dirs IH]; simpl; [reflexivity|]. intros H.
  rewrite (H d (or_introl eq_refl)). apply IH. intros d' Hd. apply H. now right.
Qed.

(** X11.  A pin-file probe reads the nearest file of its name: the file it
    hands to its reader lies in a directory of the walk from the current
    directory, has the name looked for and is a regular file, and no
    directory met earlier in the walk holds a regular file of that name.
    What the probe returns is what reading that file gives. *)
Theorem X11_probe_reads_nearest_pin (fname : string) (env : Env)
    (child : dirent) :
  find_pin fname env = Some child ->
  (exists i d,
     nth_error (parent_dirs_from (resolve env ".")) i = Some d
     /\ In child (iterdir env d)
     /\ name child = fname /\ is_file child = true
     /\ forall j d' c, (j < i)%nat ->
          nth_error (parent_dirs_from (resolve env ".")) j = Some d' ->
          In c (iterdir env d') -> name c = fname -> is_file c = false)
  /\ (fname = ".python-version" ->
      result py_version_from_python_version env
      = res_bind (read_python_version child) (fun v => Ok (Some v)))
  /\ (fname = ".maya-version" ->
      result maya_version_from_maya_version env
      = res_bind (read_maya_version child) (fun n => Ok (Some n))).
Proof.
  intros Hfind. split; [|split].
  - unfold find_pin in Hfind.
    destruct (first_pin fname _ env _) as [[c|]|e] eqn:E; try discriminate.
    injection Hfind as ->.
    destruct (first_pin_Some _ _ _ _ E) as (i & d & Hi & Hf & Hbefore).
    destruct (find_file_Some _ _ _ Hf) as (Hin & Hn & Hfile).
    exists i, d. repeat split; auto.
    intros j d' c Hj Hd' Hc Hname.
    exact (proj1 (find_file_None _ _) (Hbefore j d' Hj Hd') c Hc Hname).
  - intros ->. unfold result. rewrite py_version_from_python_version_run.
    cbn [snd]. now rewrite (find_pin_read _ _ _ _ Hfind).
  - intros ->. unfold result. rewrite maya_version_from_maya_version_run.
    cbn [snd]. now rewrite (find_pin_read _ _ _ _ Hfind).
Qed.

Lemma X11_witness :
  find_pin ".python-version" Sample.pinned_379
  = Some (mkDirent ".python-version" true "3.7.9")
  /\ result py_version_from_python_version Sample.pinned_379
     = Ok (Some (mkVersion 3 7 9)).
Proof.
  split; [reflexivity|].
  apply (X11_probe_reads_nearest_pin ".python-version" Sample.pinned_379
           (mkDirent ".python-version" true "3.7.9") eq_refl).
  reflexivity.
Defined.

(** X12.  When no directory from the current one up to the root holds a
    regular file of the name looked for, the probe returns [None]; an entry
    of that name that is not a regular file does not count. *)
Theorem X12_no_pin_file_no_answer (fname : string) (env : Env) :
  (forall d c, In d (parent_dirs_from (resolve env ".")) ->
               In c (iterdir env d) -> name c = fname -> is_file c = false) ->
  find_pin fname env = None
  /\ (fname = ".python-version" ->
      result py_version_from_python_version env = Ok None)
  /\ (fname = ".maya-version" ->
      result maya_version_from_maya_version env = Ok None).
Proof.
  intros H.
  assert (Hnone : forall d, In d (parent_dirs_from (resolve env ".")) ->
                            find_file fname (iterdir env d) = None).
  { intros d Hd. apply find_file_None. intros c. now apply H. }
  split; [|split].
  - unfold find_pin. now rewrite (first_pin_None _ _ _ _ Hnone).
  - intros ->. unfold result. rewrite py_version_from_python_version_run.
    cbn [snd]. now apply first_pin_None.
  - intros ->. unfold result. rewrite maya_version_from_maya_version_run.
    cbn [snd]. now apply first_pin_None.
Qed.

Lemma X12_witness :
  result py_version_from_python_version
    (Sample.make None [mkDirent ".python-version" false ""] (Some []))
  = Ok None.
Proof.
  apply (X12_no_pin_file_no_answer ".python-version"
           (Sample.make None [mkDirent ".python-version" false ""] (Some []))).
  - intros d c Hd Hc _.
    assert (E : parent_dirs_from
                  (resolve (Sample.make None
                              [mkDirent ".python-version" false ""]
                              (Some [])) ".")
                = [mkPath "C:\" ["proj"; "src"]; mkPath "C:\" ["proj"];
                   mkPath "C:\" []]) by reflexivity.
    rewrite E in Hd.
    destruct Hd as [<-|[<-|[<-|[]]]]; simpl in Hc; try contradiction.
    destruct Hc as [<-|[]]. reflexivity.
  - reflexivity.
Defined.

(** *** What a pin file may hold *)

Lemma digit_not_linebreak (c : ascii) :
  Py.is_digit c = true -> Py.is_linebreak c = false.
Proof.
  destruct c as [[] [] [] [] [] [] [] []]; simpl; intros H;
    solve [discriminate H | reflexivity].
Qed.

Lemma no_linebreak_app (a b : string) :
  no_linebreak (a ++ b) = no_linebreak a && no_linebreak b.
Proof.
  induction a as [|c a IH]; simpl; [reflexivity|].
  now rewrite IH, andb_assoc.
Qed.

Lemma no_linebreak_digits (s : string) :
  Py.all_digits s = true -> no_linebreak s = true.
Proof.
  induction s as [|c s IH]; simpl; [reflexivity|]. intros H.
  apply andb_prop in H as [Hc Hs].
  now rewrite (digit_not_linebreak c Hc), (IH Hs).
Qed.

Lemma str_shape (z : Z) :
  exists c r, Py.str z = String c r /\ no_linebreak (Py.str z) = true.
Proof.
  destruct (Z.lt_ge_cases z 0) as [Hz|Hz].
  - destruct z as [|p|p]; try lia. unfold Py.str. simpl.
    exists "-"%char, (NilZero.string_of_uint (Pos.to_uint p)).
    split; [reflexivity|].
    pose proof (Unsigned.to_uint_nonnil p) as Hn.
    assert (E : NilZero.string_of_uint (Pos.to_uint p)
                = NilEmpty.string_of_uint (Pos.to_uint p)).
    { destruct (Pos.to_uint p); try reflexivity. now destruct Hn. }
    rewrite E. change (no_linebreak (String "-" ?s)) with (no_linebreak s).
    apply no_linebreak_digits, uint_all_digits.
  - destruct (str_nonneg z Hz) as (d & Hd & E & _).
    destruct (uint_nonempty d Hd) as (c & r & Er & _).
    exists c, r. rewrite E. split; [assumption|].
    apply no_linebreak_digits, uint_all_digits.
Qed.

Lemma to_str_shape (v : Version) :
  exists c r, to_str v = String c r /\ no_linebreak (to_str v) = true.
Proof.
  unfold to_str.
  destruct (str_shape (major v)) as (c & r & E & Hma).
  destruct (str_shape (minor v)) as (_ & _ & _ & Hmi).
  destruct (str_shape (patch v)) as (_ & _ & _ & Hpa).
  exists c, (r ++ "." ++ Py.str (minor v) ++ "." ++ Py.str (patch v))%string.
  split; [now rewrite E|].
  rewrite !no_linebreak_app, Hma, Hmi, Hpa. reflexivity.
Qed.

(** A line boundary closes the line being read. *)
Lemma splitlines_from_break (l : string) (c : ascii) (r : string) :
  Py.is_linebreak c = true ->
  exists more, Py.splitlines_from (Some l) (String c r) = l :: more.
Proof.
  intros Hc. simpl. rewrite Hc.
  destruct c as [[] [] [] [] [] [] [] []]; try discriminate Hc;
    try (eexists; reflexivity).
  destruct r as [|c' r']; [eexists; reflexivity|].
  destruct c' as [[] [] [] [] [] [] [] []]; eexists; reflexivity.
Qed.

(** The first line of a text read from the middle of a line on. *)
Lemma splitlines_from_head (rest : string) :
  forall l,
  exists rest1 more,
    Py.splitlines_from (Some l) rest = (l ++ rest1)%string :: more
    /\ (Py.no_digit_ahead rest = true -> Py.no_digit_ahead rest1 = true)
    /\ (line_ends rest = true -> rest1 = EmptyString).
Proof.
  induction rest as [|c r IH]; intros l.
  - exists EmptyString, []. simpl. rewrite append_empty_r. auto.
  - destruct (Py.is_linebreak c) eqn:Hc.
    + destruct (splitlines_from_break l c r Hc) as [more E].
      exists EmptyString, more. rewrite E, append_empty_r. auto.
    + destruct (IH (l ++ String c EmptyString)%string)
        as (rest1 & more & E & Hd & _).
      exists (String c rest1), more. simpl. rewrite Hc, E.
      rewrite string_app_assoc. simpl. repeat split; auto.
      intros H. congruence.
Qed.

Lemma splitlines_from_app (a : string) :
  forall cur rest,
    a <> EmptyString -> no_linebreak a = true ->
    Py.splitlines_from cur (a ++ rest)
    = Py.splitlines_from
        (Some (match cur with Some l => l | None => EmptyString end ++ a)%string)
        rest.
Proof.
  induction a as [|c a IH]; intros cur rest Hne Hnl; [now destruct Hne|].
  simpl in Hnl. apply andb_prop in Hnl as [Hc Ha].
  apply negb_true_iff in Hc. simpl. rewrite Hc.
  destruct a as [|c' a'].
  - reflexivity.
  - rewrite IH by (assumption || discriminate).
    cbn [String.append]. now rewrite string_app_assoc.
Qed.

(** The first line of a text that begins with a string free of line
    boundaries. *)
Lemma splitlines_first_line (a rest : string) :
  a <> EmptyString -> no_linebreak a = true ->
  exists rest1 more,
    Py.splitlines (a ++ rest) = (a ++ rest1)%string :: more
    /\ (Py.no_digit_ahead rest = true -> Py.no_digit_ahead rest1 = true)
    /\ (line_ends rest = true -> rest1 = EmptyString).
Proof.
  intros Hne Hnl. unfold Py.splitlines.
  rewrite (splitlines_from_app a None rest Hne Hnl). simpl.
  apply splitlines_from_head.
Qed.

(** [int(str(z)) == z] for every integer. *)
Lemma int_str_all (z : Z) : Py.int (Py.str z) = Some z.
Proof.
  destruct (Z.lt_ge_cases z 0) as [Hz|Hz]; [|now apply int_str].
  destruct z as [|p|p]; try lia.
  pose proof (Unsigned.to_uint_nonnil p) as Hn.
  assert (E : Py.str (Z.neg p)
              = String "-" (NilEmpty.string_of_uint (Pos.to_uint p))).
  { unfold Py.str. simpl. destruct (Pos.to_uint p); try reflexivity.
    now destruct Hn. }
  rewrite E. pose proof (uint_all_digits (Pos.to_uint p)) as Hall.
  destruct (uint_nonempty _ Hn) as (c & r & Er & Hc).
  unfold Py.int, Py.strip.
  change (Py.lstrip (String "-" ?s)) with (String "-" s).
  assert (R : Py.rstrip (String "-" (NilEmpty.string_of_uint (Pos.to_uint p)))
              = String "-" (NilEmpty.string_of_uint (Pos.to_uint p))).
  { simpl. rewrite (rstrip_digits _ Hall). now rewrite Er. }
  rewrite R. change (Py.split_sign (String "-" ?s)) with (-1, s).
  cbv beta iota.
  rewrite (int_body_digits _ false Hall) by (rewrite Er; discriminate).
  unfold Py.of_digits. rewrite NilEmpty.usu. simpl.
  unfold Z.of_uint. now rewrite Unsigned.of_to.
Qed.

(** X13.  A [.python-version] file that begins with the string of a version
    of natural numbers pins that version, whatever follows, provided it does
    not go on with a digit: the rest of the first line and all later lines
    are ignored. *)
Theorem X13_python_pin_round_trip (env : Env) (child : dirent)
    (v : Version) (rest : string) :
  find_pin ".python-version" env = Some child ->
  read_text child = (to_str v ++ rest)%string ->
  0 <= major v -> 0 <= minor v -> 0 <= patch v ->
  Py.no_digit_ahead rest = true ->
  result py_version_from_python_version env = Ok (Some v).
Proof.
  intros Hfind Htext Hma Hmi Hpa Hrest. unfold result.
  rewrite py_version_from_python_version_run. cbn [snd].
  rewrite (find_pin_read _ _ _ _ Hfind). unfold read_python_version.
  rewrite Htext. destruct (to_str_shape v) as (c & r & E & Hnl).
  destruct (splitlines_first_line (to_str v) rest) as (rest1 & more & -> & Hd & _);
    [rewrite E; discriminate | assumption |].
  simpl. now rewrite (parse_to_str_suffix v rest1 Hma Hmi Hpa (Hd Hrest)).
Qed.

Lemma X13_witness :
  result py_version_from_python_version
    (Sample.make None
       [mkDirent ".python-version" true
          ("3.9.7 # maya 2023" ++ String "010" "2.7.18")%string]
       (Some []))
  = Ok (Some (mkVersion 3 9 7)).
Proof.
  apply (X13_python_pin_round_trip
           (Sample.make None
              [mkDirent ".python-version" true
                 ("3.9.7 # maya 2023" ++ String "010" "2.7.18")%string]
              (Some []))
           (mkDirent ".python-version" true
              ("3.9.7 # maya 2023" ++ String "010" "2.7.18")%string)
           (mkVersion 3 9 7)
           (" # maya 2023" ++ String "010" "2.7.18")%string);
    simpl; solve [reflexivity | lia].
Defined.

(** X14.  A [.maya-version] file whose first line is the string of an
    integer pins that integer, negative ones included; the lines after the
    first are ignored. *)
Theorem X14_maya_pin_round_trip (env : Env) (child : dirent)
    (n : Z) (rest : string) :
  find_pin ".maya-version" env = Some child ->
  read_text child = (Py.str n ++ rest)%string ->
  line_ends rest = true ->
  result maya_version_from_maya_version env = Ok (Some n).
Proof.
  intros Hfind Htext Hrest. unfold result.
  rewrite maya_version_from_maya_version_run. cbn [snd].
  rewrite (find_pin_read _ _ _ _ Hfind). unfold read_maya_version.
  rewrite Htext. destruct (str_shape n) as (c & r & E & Hnl).
  destruct (splitlines_first_line (Py.str n) rest) as (rest1 & more & -> & _ & He);
    [rewrite E; discriminate | assumption |].
  rewrite (He Hrest), append_empty_r. simpl. now rewrite int_str_all.
Qed.

Lemma X14_witness :
  result maya_version_from_maya_version
    (Sample.make None
       [mkDirent ".maya-version" true ("2019" ++ String "010" "2023")%string]
       (Some []))
  = Ok (Some 2019).
Proof.
  apply (X14_maya_pin_round_trip
           (Sample.make None
              [mkDirent ".maya-version" true
                 ("2019" ++ String "010" "2023")%string]
              (Some []))
           (mkDirent ".maya-version" true
              ("2019" ++ String "010" "2023")%string)
           2019 (String "010" "2023")); reflexivity.
Defined.

(** ** The ancestor walk, in full *)

Lemma parent_dirs_from_ancestors (n : nat) :
  forall path, List.length (tail path) = n ->
               parent_dirs_from path = ancestors path.
Proof.
  induction n as [|n IH]; intros [a l] Hn; simpl in Hn;
    rewrite parent_dirs_from_unfold; unfold parent, ancestors; simpl tail;
    simpl anchor.
  - destruct l; [reflexivity | discriminate].
  - destruct l as [|c cs]; [discriminate|].
    rewrite Hn, seq_S, rev_app_distr.
    change (List.rev [(0 + S n)%nat] ++ List.rev (seq 0 (S n)))
      with (S n :: List.rev (seq 0 (S n))).
    rewrite map_cons. rewrite <- Hn at 1. rewrite firstn_all.
    f_equal.
    assert (Hl : List.length (removelast (c :: cs)) = n).
    { pose proof (removelast_length c cs) as H. rewrite Hn in H.
      now injection H. }
    rewrite (IH (mkPath a (removelast (c :: cs))) Hl).
    unfold ancestors. cbn [tail anchor]. rewrite Hl.
    apply map_ext_in. intros k Hk. f_equal.
    apply firstn_removelast. apply in_rev, in_seq in Hk. rewrite Hn. lia.
Qed.

(** X15.  [parent_dirs] yields exactly the ancestors of the resolved path,
    nearest first: the resolved path itself, then the path cut to one
    component less at each step, down to the bare anchor.  Every directory
    yielded has the anchor of the resolved path. *)
Theorem X15_parent_dirs_are_the_ancestors (path : string) (env : Env) :
  parent_dirs path env = ([], Ok (ancestors (resolve env path)))
  /\ Forall (fun d => anchor d = anchor (resolve env path))
            (ancestors (resolve env path)).
Proof.
  split.
  - unfold parent_dirs, bind, ask, ret. simpl.
    now rewrite (parent_dirs_from_ancestors _ (resolve env path) eq_refl).
  - unfold ancestors. apply Forall_forall. intros d Hd.
    apply in_map_iff in Hd as (k & <- & _). reflexivity.
Qed.

(** ** [resolve_version] and [main] as a whole *)

Lemma pyver_to_mayaver_calls (v : Version) (env : Env) :
  Forall (fun ev => is_call ev = true) (trace (pyver_to_mayaver v) env).
Proof.
  destruct (pyver_to_mayaver_trace py_to_maya_map v env) as [H|H];
    unfold pyver_to_mayaver; rewrite H; repeat constructor.
Qed.

Lemma run_py_calls (env : Env) (ps : list (M (option Version))) :
  Forall (fun p => Forall (fun ev => is_call ev = true) (trace p env)) ps ->
  Forall (fun ev => is_call ev = true)
         (trace (run_py_version_resolvers ps) env).
Proof.
  induction 1 as [|p ps Hp _ IH]; [constructor|].
  unfold trace in *. simpl. unfold bind.
  destruct (p env) as [t [[v|]|e]]; simpl in *.
  - pose proof (pyver_to_mayaver_calls v env) as Hv. unfold trace in Hv.
    destruct (pyver_to_mayaver v env) as [t' [[r|]|e]]; simpl in *.
    + unfold ret. simpl. rewrite app_nil_r. now apply Forall_app.
    + destruct (run_py_version_resolvers ps env) as [t'' r'']. simpl in *.
      apply Forall_app. split; [assumption|]. now apply Forall_app.
    + now apply Forall_app.
  - destruct (run_py_version_resolvers ps env) as [t'' r'']. simpl in *.
    now apply Forall_app.
  - assumption.
Qed.

Lemma resolve_version_calls (env : Env) :
  Forall (fun ev => is_call ev = true) (trace resolve_version env).
Proof.
  assert (HA : Forall (fun ev => is_call ev = true)
                      (trace (run_py_version_resolvers py_version_resolvers)
                         env)).
  { apply run_py_calls. unfold py_version_resolvers.
    repeat apply Forall_cons; try apply Forall_nil; unfold trace;
      rewrite ?py_version_from_virtualenv_run,
        ?py_version_from_python_version_run;
      repeat constructor. }
  unfold trace in *. rewrite resolve_version_run.
  destruct (run_py_version_resolvers py_version_resolvers env)
    as [t [[r|]|e]]; cbn [fst] in *; try assumption.
  apply Forall_app. split; [assumption|].
  unfold trace. rewrite run_maya_run.
  destruct (result maya_version_from_maya_version env) as [[n|]|e];
    cbn [fst]; repeat constructor.
  unfold trace. rewrite latest_maya_version_run. repeat constructor.
Qed.

(** X16.  Without arguments, or when the first argument is no integer,
    [main] runs the interpreter of the release that [resolve_version]
    returned, when that release has an install path, and hands on every
    argument, the first one included; it returns when the child process
    exits with status 0 and raises [CalledProcessError] otherwise. *)
Theorem X16_no_override_forwards_all_arguments (args : list string)
    (env : Env) (t : list event) (r : Z) (maya_install_dir : PurePath) :
  match args with
  | a :: _ => Py.int a = None
  | [] => True
  end ->
  resolve_version env = (t, Ok (Some r)) ->
  maya_install_path env r = Some maya_install_dir ->
  main args env
  = (t ++ [Run (path_str (mayapy_exe maya_install_dir) :: args)],
     checked env (path_str (mayapy_exe maya_install_dir) :: args)).
Proof.
  intros Hargs Hres Hdir.
  destruct (start_mayapy_run r args env) as (exe & _ & Hexe & Hstart).
  rewrite Hdir in Hexe. simpl in Hexe. subst exe.
  rewrite main_run, Hres.
  destruct args as [|a rest]; [|rewrite Hargs];
    unfold trace, result; now rewrite Hstart.
Qed.

Lemma X16_witness :
  Py.int "script.py" = None
  /\ maya_install_path Sample.venv_397 2023
     = Some (mkPath "C:\" ["Autodesk"; "Maya2023"])
  /\ main ["script.py"; "-v"] Sample.venv_397
     = ([Call py_version_from_shebang_fn; Call py_version_from_virtualenv_fn;
         Call installed_maya_versions_fn;
         Run ["C:\Autodesk\Maya2023\bin\mayapy.exe"; "script.py"; "-v"]],
        Ok tt).
Proof.
  split; [reflexivity|]. split; [reflexivity|].
  apply (X16_no_override_forwards_all_arguments ["script.py"; "-v"]
           Sample.venv_397
           [Call py_version_from_shebang_fn;
            Call py_version_from_virtualenv_fn;
            Call installed_maya_versions_fn] 2023
           (mkPath "C:\" ["Autodesk"; "Maya2023"]) eq_refl eq_refl eq_refl).
Defined.

(** X17.  [main] runs at most one command, and only as its last step: the
    log of [resolve_version] holds calls only, and [main] either raises with
    that log unchanged, having run nothing, or appends one command to it;
    after the command it returns if the child process exited with status 0
    and raises [CalledProcessError] if it did not. *)
Theorem X17_main_runs_once_at_the_end (args : list string) (env : Env) :
  Forall (fun ev => is_call ev = true) (trace resolve_version env)
  /\ ((exists cmd, main args env
                   = (trace resolve_version env ++ [Run cmd],
                      checked env cmd))
      \/ (exists e, main args env = (trace resolve_version env, Raise e))).
Proof.
  split; [apply resolve_version_calls|].
  rewrite main_run. remember (trace resolve_version env) as t eqn:Et.
  unfold trace in Et. destruct (resolve_version env) as [t0 rv].
  simpl in Et. subst t0. destruct rv as [version|e]; [|right; eauto].
  assert (Hstart : forall ver a,
             exists cmd, (t ++ trace (start_mayapy ver a) env,
                          result (start_mayapy ver a) env)
                         = (t ++ [Run cmd], checked env cmd)).
  { intros ver a. destruct (start_mayapy_run ver a env) as (exe & _ & _ & E).
    unfold trace, result. rewrite E. simpl. eauto. }
  destruct args as [|a rest]; [|destruct (Py.int a) as [n|]]; cbv beta iota.
  - destruct version as [ver|]; [left; apply Hstart | right; eauto].
  - left. apply Hstart.
  - destruct version as [ver|]; [left; apply Hstart | right; eauto].
Qed.

(** X18.  When the first loop finds no release and there is no
    [.maya-version] file, [resolve_version] falls back on the installed
    releases: if at least one is installed it returns the greatest of them,
    after one query of the registry. *)
Theorem X18_fallback_is_greatest_installed (env : Env)
    (subkeys : list string) :
  Forall (no_match env) py_version_resolvers ->
  result maya_version_from_maya_version env = Ok None ->
  registry_maya_subkeys env = Some subkeys ->
  enum_versions subkeys <> [] ->
  exists n,
    resolve_version env
    = (flat_map (probe_events env) py_version_resolvers
       ++ [Call maya_version_from_maya_version_fn;
           Call latest_maya_version_fn; Call installed_maya_versions_fn],
       Ok (Some n))
    /\ In n (enum_versions subkeys)
    /\ forall m, In m (enum_versions subkeys) -> m <= n.
Proof.
  intros HA HB Hreg Hne.
  destruct (py_max_cases (enum_versions subkeys)) as [[E _]|[n En]];
    [contradiction|].
  exists n. split; [|now apply py_max_spec].
  rewrite resolve_version_run, (run_py_all env _ HA).
  unfold trace at 1, result at 1. rewrite run_maya_run, HB.
  unfold trace, result. rewrite latest_maya_version_run, Hreg, En.
  reflexivity.
Qed.

Lemma X18_witness :
  resolve_version (Sample.make None [] (Some ["2022"; "2023"; "2020"]))
  = ([Call py_version_from_shebang_fn; Call py_version_from_virtualenv_fn;
      Call py_version_from_python_version_fn;
      Call maya_version_from_maya_version_fn;
      Call latest_maya_version_fn; Call installed_maya_versions_fn],
     Ok (Some 2023)).
Proof.
  destruct (X18_fallback_is_greatest_installed
              (Sample.make None [] (Some ["2022"; "2023"; "2020"]))
              ["2022"; "2023"; "2020"])
    as (n & Hrun & Hin & Hmax).
  - repeat constructor.
  - reflexivity.
  - reflexivity.
  - discriminate.
  - rewrite Hrun. f_equal. f_equal. f_equal.
    assert (H2023 : 2023 <= n) by (apply Hmax; simpl; auto).
    simpl in Hin. destruct Hin as [<-|[<-|[<-|[]]]]; lia.
Defined.

Lemma run_py_Some (env : Env) (ps : list (M (option Version))) (r : Z) :
  result (run_py_version_resolvers ps) env = Ok (Some r) ->
  exists v, result (pyver_to_mayaver v) env = Ok (Some r).
Proof.
  induction ps as [|p ps IH]; [discriminate|].
  unfold result in *. simpl. unfold bind.
  destruct (p env) as [t [[v|]|e]]; simpl.
  - destruct (pyver_to_mayaver v env) as [t' [[r'|]|e]] eqn:E; simpl.
    + unfold ret. simpl. intros [= <-]. exists v. now rewrite E.
    + destruct (run_py_version_resolvers ps env). exact IH.
    + discriminate.
  - destruct (run_py_version_resolvers ps env). exact IH.
  - discriminate.
Qed.

Lemma pyver_to_mayaver_installed (table : list (string * Z)) (v : Version)
    (env : Env) (r : Z) :
  result (pyver_to_mayaver_in table v) env = Ok (Some r) ->
  exists installed,
    result installed_maya_versions env = Ok installed /\ In r installed.
Proof.
  unfold result. rewrite pyver_to_mayaver_in_run, installed_maya_versions_run.
  destruct (closest_loop v (dict_keys table) (None, None))
    as [[[cv|] cd]|e]; try discriminate.
  destruct (_ && _); [|discriminate]. rewrite ensure_installed_run.
  destruct (registry_maya_subkeys env) as [ks|]; [|discriminate]. simpl.
  destruct (py_in _ _) eqn:Ein; [|discriminate]. intros [= Hget].
  apply py_in_In in Ein as (r' & Hr' & Hin).
  exists (enum_versions ks). split; [reflexivity|]. congruence.
Qed.

(** X19.  Whatever [resolve_version] returns is an installed release, unless
    it is the release pinned by a [.maya-version] file: that one alone is
    returned unchecked. *)
Theorem X19_resolved_release_installed_or_pinned (env : Env) (r : Z) :
  result resolve_version env = Ok (Some r) ->
  (exists installed,
     result installed_maya_versions env = Ok installed /\ In r installed)
  \/ result maya_version_from_maya_version env = Ok (Some r).
Proof.
  unfold result at 1. rewrite resolve_version_run.
  destruct (run_py_version_resolvers py_version_resolvers env)
    as [t [[r'|]|e]] eqn:EA; cbn [snd]; try discriminate.
  - intros [= ->]. left.
    destruct (run_py_Some env py_version_resolvers r) as [v Hv].
    { unfold result. now rewrite EA. }
    exact (pyver_to_mayaver_installed _ _ _ _ Hv).
  - unfold result at 1. rewrite run_maya_run.
    destruct (result maya_version_from_maya_version env) as [[n|]|e];
      cbn [snd]; try discriminate.
    + intros [= ->]. now right.
    + destruct (result latest_maya_version env) as [n|e] eqn:El;
        [|discriminate].
      intros [= ->]. left. unfold result in El.
      rewrite latest_maya_version_run in El.
      unfold result. rewrite installed_maya_versions_run.
      destruct (registry_maya_subkeys env) as [ks|]; [|discriminate].
      simpl in *. exists (enum_versions ks). split; [reflexivity|].
      now apply py_max_spec.
Qed.

Lemma X19_witness :
  result resolve_version Sample.pinned_379 = Ok (Some 2022)
  /\ ((exists installed,
         result installed_maya_versions Sample.pinned_379 = Ok installed
         /\ In 2022 installed)
      \/ result maya_version_from_maya_version Sample.pinned_379
         = Ok (Some 2022)).
Proof.
  split; [reflexivity|].
  apply (X19_resolved_release_installed_or_pinned Sample.pinned_379 2022).
  reflexivity.
Defined.

(** ** The override on the command line, in its two spellings *)

Lemma int_dash_str (n : Z) :
  0 <= n -> Py.int ("-" ++ Py.str n) = Some (- n).
Proof.
  intros Hn. destruct n as [|p|p]; [reflexivity | | lia].
  exact (int_str_all (Z.neg p)).
Qed.

(** X20.  A release can be asked for as [2023] or as [-2023]: for a natural
    number [n], the string of [n] reads as [n] and the same string after a
    dash reads as [-n], and [main] does the same with either as its first
    argument, in every environment. *)
Theorem X20_override_with_or_without_dash (env : Env) (n : Z)
    (rest : list string) :
  0 <= n ->
  Py.int (Py.str n) = Some n
  /\ Py.int ("-" ++ Py.str n) = Some (- n)
  /\ main (Py.str n :: rest) env
     = main (("-" ++ Py.str n)%string :: rest) env.
Proof.
  intros Hn. split; [apply int_str_all|]. split; [now apply int_dash_str|].
  rewrite !main_run, (int_str_all n), (int_dash_str n Hn).
  now rewrite Z.abs_opp.
Qed.

Lemma X20_witness :
  0 <= 2022
  /\ main (Py.str 2022 :: ["script.py"]) Sample.venv_397
     = main (("-" ++ Py.str 2022)%string :: ["script.py"]) Sample.venv_397.
Proof.
  split; [lia|].
  apply (X20_override_with_or_without_dash Sample.venv_397 2022 ["script.py"]).
  lia.
Defined.

(** X21.  [main] does not check that the release it starts has an install
    path: for an override [n] without one, it still runs a command, whose
    first word is the text [None], and raises no error of its own. *)
Theorem X21_missing_install_path_runs_None (env : Env) (a : string)
    (rest : list string) (n : Z) (t : list event) (version : option Z) :
  Py.int a = Some n ->
  maya_install_path env (Z.abs n) = None ->
  resolve_version env = (t, Ok version) ->
  trace (main (a :: rest)) env = t ++ [Run ("None" :: rest)].
Proof.
  intros Ha Hpath Hres. unfold trace at 1. rewrite main_run, Hres, Ha.
  cbn [fst]. f_equal.
  destruct (start_mayapy_run (Z.abs n) rest env) as (exe & _ & Hexe & Hstart).
  rewrite Hpath in Hexe. simpl in Hexe. subst exe.
  unfold trace. now rewrite Hstart.
Qed.

Lemma X21_witness :
  Py.int "2024" = Some 2024
  /\ trace (main ["2024"; "script.py"])
       (mkEnv None "3.9.7" (fun _ => Sample.cwd) (fun _ => [])
          (Some ["2023"]) (fun _ => None) (fun _ => 1))
     = [Call py_version_from_shebang_fn; Call py_version_from_virtualenv_fn;
        Call py_version_from_python_version_fn;
        Call maya_version_from_maya_version_fn;
        Call latest_maya_version_fn; Call installed_maya_versions_fn;
        Run ["None"; "script.py"]].
Proof.
  split; [reflexivity|].
  apply (X21_missing_install_path_runs_None
           (mkEnv None "3.9.7" (fun _ => Sample.cwd) (fun _ => [])
              (Some ["2023"]) (fun _ => None) (fun _ => 1))
           "2024" ["script.py"] 2024
           [Call py_version_from_shebang_fn;
            Call py_version_from_virtualenv_fn;
            Call py_version_from_python_version_fn;
            Call maya_version_from_maya_version_fn;
            Call latest_maya_version_fn; Call installed_maya_versions_fn]
           (Some 2023)); reflexivity.
Defined.
